(** * The MCNP/TRIPOLI-4 geometry-comparison oracle

    A shallow embedding of [Oracle/src/Statistics.cc],
    [Oracle/src/options_compare.cc] and [Oracle/src/oracle.cc], followed by
    the properties of the equivalence engine, of the statistics and of the
    command-line options. *)

From Stdlib Require Import ZArith Lia Ascii String Floats.SpecFloat.
From stdpp Require Import gmap strings list.

Local Open Scope Z_scope.

(** * C++ scalars *)

(** [int] is a 32-bit two's complement integer.  A value that leaves the
    range is brought back by [int_wrap]. *)
Module CInt.
Definition INT_MIN : Z := - 2 ^ 31.
Definition INT_MAX : Z := 2 ^ 31 - 1.

Definition int_wrap (z : Z) : Z := (z + 2 ^ 31) mod 2 ^ 32 - 2 ^ 31.

Definition in_range (z : Z) : Prop := INT_MIN <= z <= INT_MAX.

(** [++n] and [a + b] on [int]. *)
Definition incr (n : Z) : Z := int_wrap (n + 1).
Definition add (a b : Z) : Z := int_wrap (a + b).
End CInt.

(** [double] is IEEE 754 binary64, [float] is binary32; both are values of
    [spec_float], with the operations of the standard library's
    specification at the matching precision. *)
Module CDouble.
Definition double : Type := spec_float.

Definition prec : Z := 53.
Definition emax : Z := 1024.

Definition zero : double := S754_zero false.
Definition nan : double := S754_nan.

Definition add (x y : double) : double := SFadd prec emax x y.
Definition mul (x y : double) : double := SFmul prec emax x y.
Definition div (x y : double) : double := SFdiv prec emax x y.

(** The comparisons [x < y], [x <= y] and [x == y]; each is false as soon
    as one side is a NaN. *)
Definition ltb (x y : double) : bool := SFltb x y.
Definition leb (x y : double) : bool := SFleb x y.
Definition eqb (x y : double) : bool := SFeqb x y.

(** Conversion of an integer: [double(n)], rounding to nearest even. *)
Definition of_Z (n : Z) : double := binary_normalize prec emax n 0 false.

(** [float(n)] for an integer, and the promotion of that [float] to
    [double] in mixed arithmetic (exact). *)
Definition float_of_Z (n : Z) : spec_float := binary_normalize 24 128 n 0 false.
Definition of_float (f : spec_float) : double :=
  match f with
  | S754_finite s m e => binary_round prec emax s m e
  | _ => f
  end.

(** [std::max(a, b)] is [(a < b) ? b : a]. *)
Definition max (a b : double) : double := if ltb a b then b else a.

Definition is_nan (x : double) : bool :=
  match x with S754_nan => true | _ => false end.

(** The literal [1.0e-7], that is [0x3E7AD7F29ABCAF48]. *)
Definition lit_1e_7 : double := S754_finite false 7555786372591432 (-76).

(** The literal [100.]. *)
Definition lit_100 : double := of_Z 100.
End CDouble.

(** * Outcomes of a call

    A call returns, ends the process with [exit], leaves through an
    exception nobody catches, or has no defined behaviour (an index past
    the end of a [std::vector]). *)
Inductive result (A : Type) : Type :=
| Ret (a : A)
| Exit (status : Z)
| Throw (what : string)
| Undefined.
Arguments Ret {A} a.
Arguments Exit {A} status.
Arguments Throw {A} what.
Arguments Undefined {A}.

#[global] Instance result_ret : MRet result := fun A a => Ret a.
#[global] Instance result_bind : MBind result := fun A B k r =>
  match r with
  | Ret a => k a
  | Exit c => Exit c
  | Throw w => Throw w
  | Undefined => Undefined
  end.

Definition EXIT_SUCCESS : Z := 0.
Definition EXIT_FAILURE : Z := 1.

(** * [std::string] members used by the sources *)
Module StdString.
Local Open Scope nat_scope.

Definition mem (c : ascii) (chars : string) : bool :=
  existsb (Ascii.eqb c) (list_ascii_of_string chars).

Fixpoint find_last_of_from (chars s : string) (i : nat) (last : option nat)
  : option nat :=
  match s with
  | EmptyString => last
  | String c s' =>
      find_last_of_from chars s' (S i) (if mem c chars then Some i else last)
  end.

(** [s.find_last_of(chars)]; [None] is [std::string::npos]. *)
Definition find_last_of (s chars : string) : option nat :=
  find_last_of_from chars s 0 None.

(** [s.substr(pos, count)], with [count = None] for [npos]; throws
    [std::out_of_range] when [pos > s.size()]. *)
Definition substr (s : string) (pos : nat) (count : option nat) : result string :=
  if String.length s <? pos then Throw "out_of_range"
  else
    let avail := String.length s - pos in
    Ret (substring pos (match count with
                        | None => avail
                        | Some n => Nat.min n avail
                        end) s).
End StdString.

(** * [Statistics.cc] *)
Module Statistics.

(** One row of the failure table: eight [double] fields, in the order
    the table declares them. *)
Record failedPoint : Type := mkFailedPoint {
  position : CDouble.double * CDouble.double * CDouble.double;
  pointID : CDouble.double;
  cellID : CDouble.double;
  materialID : CDouble.double;
  dist : CDouble.double;
  rank : CDouble.double
}.

(** The members of the class: four [int] counters (what [getTotalPts],
    [reportOn] and the export loop take them for), the number of volumes
    ([long]), the set of covered ranks and the vector of failures. *)
Record Statistics : Type := mkStatistics {
  nbSuccess : Z;
  nbFailure : Z;
  nbIgnored : Z;
  nbOutside : Z;
  nbT4Volumes : Z;
  coveredRanks : gset Z;
  failures : list failedPoint
}.

(** [Statistics::Statistics()] *)
Definition new : Statistics :=
  {| nbSuccess := 0; nbFailure := 0; nbIgnored := 0; nbOutside := 0;
     nbT4Volumes := 0; coveredRanks := ∅; failures := [] |}.

Definition incrementSuccess (s : Statistics) : Statistics :=
  {| nbSuccess := CInt.incr (nbSuccess s); nbFailure := nbFailure s;
     nbIgnored := nbIgnored s; nbOutside := nbOutside s;
     nbT4Volumes := nbT4Volumes s; coveredRanks := coveredRanks s;
     failures := failures s |}.

Definition incrementFailure (s : Statistics) : Statistics :=
  {| nbSuccess := nbSuccess s; nbFailure := CInt.incr (nbFailure s);
     nbIgnored := nbIgnored s; nbOutside := nbOutside s;
     nbT4Volumes := nbT4Volumes s; coveredRanks := coveredRanks s;
     failures := failures s |}.

Definition incrementIgnore (s : Statistics) : Statistics :=
  {| nbSuccess := nbSuccess s; nbFailure := nbFailure s;
     nbIgnored := CInt.incr (nbIgnored s); nbOutside := nbOutside s;
     nbT4Volumes := nbT4Volumes s; coveredRanks := coveredRanks s;
     failures := failures s |}.

Definition incrementOutside (s : Statistics) : Statistics :=
  {| nbSuccess := nbSuccess s; nbFailure := nbFailure s;
     nbIgnored := nbIgnored s; nbOutside := CInt.incr (nbOutside s);
     nbT4Volumes := nbT4Volumes s; coveredRanks := coveredRanks s;
     failures := failures s |}.

(** [int getTotalPts()]: three [int] additions, left to right. *)
Definition getTotalPts (s : Statistics) : Z :=
  CInt.add (CInt.add (CInt.add (nbSuccess s) (nbFailure s)) (nbIgnored s))
           (nbOutside s).

Definition recordCoveredRank (rank : Z) (s : Statistics) : Statistics :=
  {| nbSuccess := nbSuccess s; nbFailure := nbFailure s;
     nbIgnored := nbIgnored s; nbOutside := nbOutside s;
     nbT4Volumes := nbT4Volumes s; coveredRanks := {[ rank ]} ∪ coveredRanks s;
     failures := failures s |}.

Definition setNbT4Volumes (nbVolumes : Z) (s : Statistics) : Statistics :=
  {| nbSuccess := nbSuccess s; nbFailure := nbFailure s;
     nbIgnored := nbIgnored s; nbOutside := nbOutside s;
     nbT4Volumes := nbVolumes; coveredRanks := coveredRanks s;
     failures := failures s |}.

(** [recordFailure]: reads [position[0..2]] without a bounds check, builds
    the row and pushes it at the back of [failures].  No counter is
    touched. *)
Definition recordFailure (position : list CDouble.double) (rank pointID cellID
    materialID : Z) (dist : CDouble.double) (s : Statistics) : result Statistics :=
  match position !! 0%nat, position !! 1%nat, position !! 2%nat with
  | Some x, Some y, Some z =>
      let failed :=
        {| position := (x, y, z);
           pointID := CDouble.of_Z pointID;
           cellID := CDouble.of_Z cellID;
           materialID := CDouble.of_Z materialID;
           dist := dist;
           rank := CDouble.of_Z rank |} in
      Ret {| nbSuccess := nbSuccess s; nbFailure := nbFailure s;
             nbIgnored := nbIgnored s; nbOutside := nbOutside s;
             nbT4Volumes := nbT4Volumes s; coveredRanks := coveredRanks s;
             failures := failures s ++ [failed] |}
  | _, _, _ => Undefined
  end.

Definition getFailures (s : Statistics) : list failedPoint := failures s.

(** What [reportOn] sends to [cout]: the label, the count and
    [100. * float(data) / float(total)]. *)
Record ReportLine : Type := mkReportLine {
  status : string;
  data : Z;
  percent : CDouble.double
}.

Definition reportOn (status : string) (data total : Z) : ReportLine :=
  {| status := status;
     data := data;
     percent :=
       CDouble.div
         (CDouble.mul CDouble.lit_100 (CDouble.of_float (CDouble.float_of_Z data)))
         (CDouble.of_float (CDouble.float_of_Z total)) |}.

(** The body of the range-for loop of [report], as a left fold that
    carries [(averageDist, maxDist)]. *)
Definition accumulate (acc : CDouble.double * CDouble.double) (fp : failedPoint)
  : CDouble.double * CDouble.double :=
  (CDouble.add (fst acc) (dist fp), CDouble.max (snd acc) (dist fp)).

(** The values [report] prints, in order. *)
Record Report : Type := mkReport {
  sampled : Z;
  lines : list ReportLine;
  covered : Z;
  inputVolumes : Z;
  averageDist : CDouble.double;
  maxDist : CDouble.double
}.

Definition report (s : Statistics) : Report :=
  let '(sum, maxDist) :=
    fold_left accumulate (failures s) (CDouble.zero, CDouble.zero) in
  let averageDist := CDouble.div sum (CDouble.of_Z (Z.of_nat (length (failures s)))) in
  let totalPt := getTotalPts s in
  {| sampled := totalPt;
     lines := [ reportOn "SUCCESSFUL" (nbSuccess s) totalPt;
                reportOn "FAILED    " (nbFailure s) totalPt;
                reportOn "IGNORED   " (nbIgnored s) totalPt;
                reportOn "OUTSIDE   " (nbOutside s) totalPt ];
     covered := Z.of_nat (size (coveredRanks s));
     inputVolumes := nbT4Volumes s;
     averageDist := averageDist;
     maxDist := maxDist |}.

(** [getRawFileName]: cut at the last dot, then drop everything up to the
    last slash of [fname]; the second [substr] is applied to the already
    shortened name. *)
Definition getRawFileName (fname : string) : result string :=
  rawname ← StdString.substr fname 0 (StdString.find_last_of fname ".");
  match StdString.find_last_of fname "/" with
  | Some lastindex => StdString.substr rawname (S lastindex) None
  | None => Ret rawname
  end.

(** A file written by the export: its name and its text. *)
Record TextFile : Type := mkTextFile { path : string; text : string }.

(** [writePointsFile]: the file [rawname.points] with one line. *)
Definition writePointsFile (rawname : string) : TextFile :=
  {| path := rawname +:+ ".points";
     text := "name " +:+ (rawname +:+ (".failedpoints.general" +:+ String "010" "")) |}.

(** The loop [for (int iFail = 0; iFail < nbFailure; iFail++)
    t4_store.store(&failures[iFail])], with [todo] iterations left. *)
Fixpoint store_loop (failures : list failedPoint) (iFail todo : nat)
    (stored : list failedPoint) : result (list failedPoint) :=
  match todo with
  | O => Ret stored
  | S todo' =>
      match failures !! iFail with
      | Some fp => store_loop failures (S iFail) todo' (stored ++ [fp])
      | None => Undefined
      end
  end.

(** What [writeOutForVisu] leaves behind: the table opened by
    [t4_store.initialize] with the rows given to [t4_store.store], and the
    pointer file.  The event store itself belongs to the TRIPOLI-4
    library; one stored event is one data row. *)
Record VisuOutput : Type := mkVisuOutput {
  datFile : string;
  columns : list string;
  rows : list failedPoint;
  pointsFile : TextFile
}.

Definition writeOutForVisu (s : Statistics) (fname : string) : result VisuOutput :=
  rawname ← getRawFileName fname;
  let datFile := rawname +:+ ".failedpoints.dat" in
  stored ← store_loop (failures s) 0 (Z.to_nat (nbFailure s)) [];
  Ret {| datFile := datFile;
         columns := ["x"; "y"; "z"; "pointID"; "cellID"; "materialID"; "dist"; "rank"];
         rows := stored;
         pointsFile := writePointsFile rawname |}.

End Statistics.

(** * [options_compare.cc] *)
Module OptionsCompare.

Inductive PTRACFormat : Type := BINARY | ASCII.

(** The members of the class.  [npoints] is a [unique_ptr<long>], empty
    until [--npts] sets it. *)
Record OptionsCompare : Type := mkOptionsCompare {
  help : bool;
  verbosity : Z;
  delta : CDouble.double;
  guessMaterialAssocs : bool;
  ptracFormat : PTRACFormat;
  npoints : option Z;
  filenames : list string
}.

(** [OptionsCompare::OptionsCompare()] *)
Definition new : OptionsCompare :=
  {| help := false; verbosity := 0; delta := CDouble.lit_1e_7;
     guessMaterialAssocs := false; ptracFormat := BINARY;
     npoints := None; filenames := [] |}.

Definition set_help (b : bool) (o : OptionsCompare) : OptionsCompare :=
  {| help := b; verbosity := verbosity o; delta := delta o;
     guessMaterialAssocs := guessMaterialAssocs o; ptracFormat := ptracFormat o;
     npoints := npoints o; filenames := filenames o |}.

Definition set_verbosity (v : Z) (o : OptionsCompare) : OptionsCompare :=
  {| help := help o; verbosity := v; delta := delta o;
     guessMaterialAssocs := guessMaterialAssocs o; ptracFormat := ptracFormat o;
     npoints := npoints o; filenames := filenames o |}.

Definition set_delta (d : CDouble.double) (o : OptionsCompare) : OptionsCompare :=
  {| help := help o; verbosity := verbosity o; delta := d;
     guessMaterialAssocs := guessMaterialAssocs o; ptracFormat := ptracFormat o;
     npoints := npoints o; filenames := filenames o |}.

Definition set_guessMaterialAssocs (b : bool) (o : OptionsCompare) : OptionsCompare :=
  {| help := help o; verbosity := verbosity o; delta := delta o;
     guessMaterialAssocs := b; ptracFormat := ptracFormat o;
     npoints := npoints o; filenames := filenames o |}.

Definition set_ptracFormat (f : PTRACFormat) (o : OptionsCompare) : OptionsCompare :=
  {| help := help o; verbosity := verbosity o; delta := delta o;
     guessMaterialAssocs := guessMaterialAssocs o; ptracFormat := f;
     npoints := npoints o; filenames := filenames o |}.

Definition set_npoints (n : option Z) (o : OptionsCompare) : OptionsCompare :=
  {| help := help o; verbosity := verbosity o; delta := delta o;
     guessMaterialAssocs := guessMaterialAssocs o; ptracFormat := ptracFormat o;
     npoints := n; filenames := filenames o |}.

Definition push_filename (f : string) (o : OptionsCompare) : OptionsCompare :=
  {| help := help o; verbosity := verbosity o; delta := delta o;
     guessMaterialAssocs := guessMaterialAssocs o; ptracFormat := ptracFormat o;
     npoints := npoints o; filenames := filenames o ++ [f] |}.

(** [check_argv]: leaves the process when [ip >= argc]. *)
Definition check_argv (argc ip : Z) : result unit :=
  if argc <=? ip then Exit EXIT_FAILURE else Ret tt.

Section GetOpts.
(** What [get_opts] calls outside this file: [int_of_string], the
    stream extraction [istringstream(text) >> delta] and
    [access(fname, R_OK) != -1].  The extraction either stores a value
    in [delta] (the number read, or what the library stores for a text
    that is no number), or stores nothing and leaves [delta] as it was
    (an empty or blank text, on which the stream fails before any
    conversion): [Some value] and [None]. *)
Variable int_of_string : string -> Z.
Variable extract_double : string -> option CDouble.double.
Variable readable : string -> bool.

(** The statements of the [--delta] branch after [check_argv]:
    [os >> delta], then the test [delta <= 0] on what [delta] holds. *)
Definition read_delta (text : string) (o : OptionsCompare) : OptionsCompare :=
  let o := match extract_double text with
           | Some value => set_delta value o
           | None => o
           end in
  if CDouble.leb (delta o) CDouble.zero
  then set_delta CDouble.lit_1e_7 o
  else o.

(** The statements of the [--npts] branch after [check_argv]. *)
Definition read_npts (text : string) (o : OptionsCompare) : OptionsCompare :=
  let npoints_arg := int_of_string text in
  if npoints_arg <=? 0 then o else set_npoints (Some npoints_arg) o.

(** The [for] loop over [argv]: [args] is [argv] from index [i] on.
    The boolean of the result tells whether the loop left [get_opts]
    through [return] ([--help]) or ran to its end. *)
Fixpoint for_loop (argc i : Z) (args : list string) (o : OptionsCompare)
  : result (bool * OptionsCompare) :=
  if argc <=? i then Ret (false, o) else
  match args with
  | [] => Undefined
  | opt :: rest =>
      if (opt =? "--help")%string || (opt =? "-h")%string then
        Ret (true, set_help true o)
      else if (opt =? "--verbose")%string || (opt =? "-V")%string then
        for_loop argc (i + 1) rest (set_verbosity (CInt.incr (verbosity o)) o)
      else if (opt =? "--guess-material-assocs")%string || (opt =? "-g")%string then
        for_loop argc (i + 1) rest (set_guessMaterialAssocs true o)
      else if (opt =? "--npts")%string || (opt =? "-n")%string then
        match check_argv argc (i + 1) with
        | Ret _ =>
            match rest with
            | [] => Undefined
            | text :: rest' => for_loop argc (i + 1 + 1) rest' (read_npts text o)
            end
        | Exit c => Exit c
        | Throw w => Throw w
        | Undefined => Undefined
        end
      else if (opt =? "--delta")%string || (opt =? "-d")%string then
        match check_argv argc (i + 1) with
        | Ret _ =>
            match rest with
            | [] => Undefined
            | text :: rest' => for_loop argc (i + 1 + 1) rest' (read_delta text o)
            end
        | Exit c => Exit c
        | Throw w => Throw w
        | Undefined => Undefined
        end
      else if (opt =? "--binary")%string then
        for_loop argc (i + 1) rest (set_ptracFormat BINARY o)
      else if (opt =? "--ascii")%string then
        for_loop argc (i + 1) rest (set_ptracFormat ASCII o)
      else
        for_loop argc (i + 1) rest (push_filename opt o)
  end.

(** The final loop: every file name must be readable. *)
Fixpoint check_files (fnames : list string) : result unit :=
  match fnames with
  | [] => Ret tt
  | fname :: rest =>
      if readable fname then check_files rest else Exit EXIT_FAILURE
  end.

(** [get_opts(argc, argv)] with [argc] the length of [argv]. *)
Definition get_opts (argv : list string) (o : OptionsCompare) : result OptionsCompare :=
  let argc := Z.of_nat (length argv) in
  if argc <=? 3 then Ret (set_help true o)
  else
    '(returned, o) ← for_loop argc 1 (tail argv) o;
    if returned : bool then Ret o
    else
      _ ← check_files (filenames o);
      Ret o.
End GetOpts.

End OptionsCompare.

(** * [oracle.cc] *)
Module Oracle.
Import Statistics.

Section Engine.
(** The key [getMaterialDensity()] returns: a source material together
    with its density.  Its type is declared with [MCNPGeometry]; the
    engine only stores it and compares it. *)
Context {MaterialKey : Type} `{Countable MaterialKey}.

(** The answers of the TRIPOLI-4 volume services for one input file:
    the rank of the volume that holds a point (negative when no volume
    does), the composition of a volume and the distance from a point to
    the nearest surface of a volume. *)
Record Volumes : Type := mkVolumes {
  which_volume : list CDouble.double -> Z;
  get_name_from_volume : Z -> string;
  distanceFromSurface : list CDouble.double -> Z -> CDouble.double
}.

Record T4Geometry : Type := mkT4Geometry {
  volumes : Volumes;
  delta : CDouble.double;
  equivalenceMap : gmap MaterialKey string
}.

(** Modelled from the spec: the constructor of [T4Geometry], whose file
    is not part of the sources at hand.  The map is empty at engine
    construction; the second argument is the surface tolerance. *)
Definition T4Geometry_new (v : Volumes) (delta : CDouble.double) : T4Geometry :=
  {| volumes := v; delta := delta; equivalenceMap := ∅ |}.

(** Modelled from the spec: [T4Geometry::materialInMap], missing like
    the constructor: whether the key is present in the map. *)
Definition materialInMap (g : T4Geometry) (key : MaterialKey) : bool :=
  bool_decide (is_Some (equivalenceMap g !! key)).

(** Modelled from the spec: [T4Geometry::addEquivalence], missing like
    the constructor: insert [key -> compo]. *)
Definition addEquivalence (g : T4Geometry) (key : MaterialKey) (compo : string)
  : T4Geometry :=
  {| volumes := volumes g; delta := delta g;
     equivalenceMap := <[key := compo]> (equivalenceMap g) |}.

(** Modelled from the spec: [T4Geometry::weakEquivalence], missing like
    the constructor: the composition stored for the key equals
    [compo]. *)
Definition weakEquivalence (g : T4Geometry) (key : MaterialKey) (compo : string)
  : bool :=
  bool_decide (equivalenceMap g !! key = Some compo).

(** Modelled from the spec: [T4Geometry::isPointNearSurface], missing
    like the constructor: [surfaceDistance <= toleranceDelta]. *)
Definition isPointNearSurface (g : T4Geometry) (point : list CDouble.double)
    (rank : Z) : bool :=
  CDouble.leb (distanceFromSurface (volumes g) point rank) (delta g).

(** One record of the PTRAC file, as the accessors [getPointXyz] and
    [getMaterialDensity] give it. *)
Record PtracData : Type := mkPtracData {
  pointXyz : list CDouble.double;
  materialDensity : MaterialKey
}.

Record MCNPGeometry : Type := mkMCNPGeometry {
  nps : Z;
  unread : list PtracData;
  nbPointsRead : Z
}.

(** Modelled from the spec: the constructor of [MCNPGeometry] (with
    [parseINP] and [goThroughHeaderPTRAC]), whose file is not part of
    the sources at hand: the records of the file, none read yet. *)
Definition MCNPGeometry_new (nps : Z) (records : list PtracData) : MCNPGeometry :=
  {| nps := nps; unread := records; nbPointsRead := 0 |}.

(** Modelled from the spec: [MCNPGeometry::readNextPtracData], missing
    like the constructor: the sample source supplies the next record
    and reports when it is exhausted or when the sample budget is
    reached. *)
Definition readNextPtracData (maxReadPoint : Z) (m : MCNPGeometry)
  : option (PtracData * MCNPGeometry) :=
  if maxReadPoint <=? nbPointsRead m then None
  else
    match unread m with
    | [] => None
    | d :: rest =>
        Some (d, {| nps := nps m; unread := rest;
                    nbPointsRead := nbPointsRead m + 1 |})
    end.

(** The body of the [while] loop of [compare_geoms] for the record [d]:
    the geometry and the statistics after it, or the [exit]. *)
Definition loop_body (d : PtracData) (t4Geom : T4Geometry) (stats : Statistics)
  : result (T4Geometry * Statistics) :=
  let point := pointXyz d in
  let rank := which_volume (volumes t4Geom) point in
  let compo := get_name_from_volume (volumes t4Geom) rank in
  if rank <? 0 then Exit EXIT_FAILURE
  else if negb (materialInMap t4Geom (materialDensity d)) then
    Ret (addEquivalence t4Geom (materialDensity d) compo, incrementSuccess stats)
  else if weakEquivalence t4Geom (materialDensity d) compo then
    Ret (t4Geom, incrementSuccess stats)
  else if isPointNearSurface t4Geom point rank then
    Ret (t4Geom, incrementIgnore stats)
  else
    Ret (t4Geom, incrementFailure stats).

(** How a run ends: [compare_geoms] returns its statistics, or the
    process leaves through [exit]; in that case the statistics (and the
    geometry) are the ones that exist at that moment.  [Crashed] stands
    for a body that ends in any other way; the body above has no such
    branch. *)
Inductive RunEnd : Type :=
| Returned (t4Geom : T4Geometry) (stats : Statistics)
| Exited (status : Z) (t4Geom : T4Geometry) (stats : Statistics)
| Crashed.

(** The [while] loop, by recursion on the records still unread. *)
Fixpoint while_loop (nbSampledPts : Z) (unread : list PtracData)
    (nbPointsRead : Z) (t4Geom : T4Geometry) (stats : Statistics) : RunEnd :=
  match unread with
  | [] => Returned t4Geom stats
  | d :: rest =>
      if nbSampledPts <=? nbPointsRead then Returned t4Geom stats
      else
        match loop_body d t4Geom stats with
        | Ret (t4Geom', stats') =>
            while_loop nbSampledPts rest (nbPointsRead + 1) t4Geom' stats'
        | Exit status => Exited status t4Geom stats
        | _ => Crashed
        end
  end.

(** [compare_geoms]: [npoints] is [options.npoints], [t4] stands for
    the TRIPOLI-4 file [options.filenames[0]], [inpNPS] and [records] for
    the MCNP input and PTRAC files. *)
Definition compare_geoms (npoints : Z) (t4 : Volumes) (inpNPS : Z)
    (records : list PtracData) : RunEnd :=
  let t4Geom := T4Geometry_new t4 CDouble.zero in
  let mcnpGeom := MCNPGeometry_new inpNPS records in
  let stats := Statistics.new in
  let nbSampledPts := CInt.int_wrap (Z.min npoints (nps mcnpGeom)) in
  while_loop nbSampledPts (unread mcnpGeom) (nbPointsRead mcnpGeom) t4Geom stats.

(** ** The run, step by step *)

(** The three objects the loop works on. *)
Record LoopState : Type := mkLoopState {
  mcnpGeom : MCNPGeometry;
  t4Geom : T4Geometry;
  stats : Statistics
}.

(** One evaluation of the loop condition followed by the body. *)
Inductive Iteration : Type :=
| Continue (next : LoopState)
| Stop
| Abort (status : Z)
| Fault.

Definition iteration (nbSampledPts : Z) (σ : LoopState) : Iteration :=
  match readNextPtracData nbSampledPts (mcnpGeom σ) with
  | None => Stop
  | Some (d, m') =>
      match loop_body d (t4Geom σ) (stats σ) with
      | Ret (g', s') => Continue {| mcnpGeom := m'; t4Geom := g'; stats := s' |}
      | Exit status => Abort status
      | _ => Fault
      end
  end.

(** [σ'] follows [σ] after one iteration. *)
Definition step (nbSampledPts : Z) (σ σ' : LoopState) : Prop :=
  iteration nbSampledPts σ = Continue σ'.

(** The state [compare_geoms] enters its loop with, and its budget. *)
Definition budget (npoints nps : Z) : Z := CInt.int_wrap (Z.min npoints nps).

Definition initial (t4 : Volumes) (nps : Z) (records : list PtracData) : LoopState :=
  {| mcnpGeom := MCNPGeometry_new nps records;
     t4Geom := T4Geometry_new t4 CDouble.zero;
     stats := Statistics.new |}.

(** The loop started in [σ]. *)
Definition run_from (nbSampledPts : Z) (σ : LoopState) : RunEnd :=
  while_loop nbSampledPts (unread (mcnpGeom σ)) (nbPointsRead (mcnpGeom σ))
             (t4Geom σ) (stats σ).

(** ** The run as a relation

    The same loop, written as the outcome each branch of the body
    stands for.  [classify] has one rule per branch; [run] collects the
    outcomes of a whole run together with its end. *)
Inductive SampleOutcome : Type := Success | Failure | Ignored | Outside.

(** The call on [stats] in each branch. *)
Definition record (o : SampleOutcome) (stats : Statistics) : Statistics :=
  match o with
  | Success => incrementSuccess stats
  | Failure => incrementFailure stats
  | Ignored => incrementIgnore stats
  | Outside => stats
  end.

Inductive classify (g : T4Geometry) (d : PtracData)
  : SampleOutcome -> T4Geometry -> Prop :=
| classify_outside :
    which_volume (volumes g) (pointXyz d) < 0 ->
    classify g d Outside g
| classify_first :
    0 <= which_volume (volumes g) (pointXyz d) ->
    materialInMap g (materialDensity d) = false ->
    classify g d Success
      (addEquivalence g (materialDensity d)
         (get_name_from_volume (volumes g) (which_volume (volumes g) (pointXyz d))))
| classify_same :
    0 <= which_volume (volumes g) (pointXyz d) ->
    materialInMap g (materialDensity d) = true ->
    weakEquivalence g (materialDensity d)
      (get_name_from_volume (volumes g) (which_volume (volumes g) (pointXyz d))) = true ->
    classify g d Success g
| classify_near :
    0 <= which_volume (volumes g) (pointXyz d) ->
    materialInMap g (materialDensity d) = true ->
    weakEquivalence g (materialDensity d)
      (get_name_from_volume (volumes g) (which_volume (volumes g) (pointXyz d))) = false ->
    isPointNearSurface g (pointXyz d) (which_volume (volumes g) (pointXyz d)) = true ->
    classify g d Ignored g
| classify_far :
    0 <= which_volume (volumes g) (pointXyz d) ->
    materialInMap g (materialDensity d) = true ->
    weakEquivalence g (materialDensity d)
      (get_name_from_volume (volumes g) (which_volume (volumes g) (pointXyz d))) = false ->
    isPointNearSurface g (pointXyz d) (which_volume (volumes g) (pointXyz d)) = false ->
    classify g d Failure g.

Inductive run (nbSampledPts : Z)
  : LoopState -> list SampleOutcome -> RunEnd -> Prop :=
| run_stop σ :
    readNextPtracData nbSampledPts (mcnpGeom σ) = None ->
    run nbSampledPts σ [] (Returned (t4Geom σ) (stats σ))
| run_exit σ d m' g' :
    readNextPtracData nbSampledPts (mcnpGeom σ) = Some (d, m') ->
    classify (t4Geom σ) d Outside g' ->
    run nbSampledPts σ [Outside] (Exited EXIT_FAILURE (t4Geom σ) (stats σ))
| run_next σ d m' o g' os e :
    readNextPtracData nbSampledPts (mcnpGeom σ) = Some (d, m') ->
    classify (t4Geom σ) d o g' ->
    o <> Outside ->
    run nbSampledPts
        {| mcnpGeom := m'; t4Geom := g'; stats := record o (stats σ) |} os e ->
    run nbSampledPts σ (o :: os) e.

End Engine.

Arguments T4Geometry MaterialKey {_ _}.
Arguments PtracData : clear implicits.
Arguments MCNPGeometry : clear implicits.
Arguments RunEnd MaterialKey {_ _}.
Arguments LoopState MaterialKey {_ _}.
Arguments Iteration MaterialKey {_ _}.
End Oracle.

(** * Vocabulary of the statements *)

(** The four outcome counters of a [Statistics], in the order success,
    failure, ignored, outside. *)
Definition counters (s : Statistics.Statistics) : Z * Z * Z * Z :=
  (Statistics.nbSuccess s, Statistics.nbFailure s,
   Statistics.nbIgnored s, Statistics.nbOutside s).

(** Every counter can still be incremented without leaving [int]. *)
Definition below_max (s : Statistics.Statistics) : Prop :=
  Forall (fun c => CInt.INT_MIN <= c < CInt.INT_MAX)
         [Statistics.nbSuccess s; Statistics.nbFailure s;
          Statistics.nbIgnored s; Statistics.nbOutside s].

(** [0 < d] on [double]. *)
Definition positive (d : CDouble.double) : Prop :=
  CDouble.ltb CDouble.zero d = true.

(** Where the raw name of a file starts and stops: after the last slash,
    before the last dot. *)
Definition name_start (fname : string) : nat :=
  match StdString.find_last_of fname "/" with
  | Some lastindex => S lastindex
  | None => 0%nat
  end.

Definition name_stop (fname : string) : nat :=
  match StdString.find_last_of fname "." with
  | Some lastindex => lastindex
  | None => String.length fname
  end.

(** The failure counter and the failure list agree: every failure was
    both counted and recorded. *)
Definition in_step (s : Statistics.Statistics) : Prop :=
  Statistics.nbFailure s = Z.of_nat (length (Statistics.failures s)).

(** The place of a [double] that is not a NaN in the order of the
    comparisons: its class first (infinities outermost, zeros of either
    sign in the middle), then exponent and mantissa, mirrored for negative
    numbers. *)
Definition float_key (x : CDouble.double) : Z * Z * Z :=
  match x with
  | S754_infinity true => (-2, 0, 0)
  | S754_finite true m e => (-1, - e, Zneg m)
  | S754_zero _ => (0, 0, 0)
  | S754_nan => (0, 0, 0)
  | S754_finite false m e => (1, e, Zpos m)
  | S754_infinity false => (2, 0, 0)
  end.

Definition lex3 (a b : Z * Z * Z) : comparison :=
  match a.1.1 ?= b.1.1 with
  | Eq => match a.1.2 ?= b.1.2 with
          | Eq => a.2 ?= b.2
          | c => c
          end
  | c => c
  end.

(** The words [get_opts] takes for options. *)
Definition option_words : list string :=
  ["--help"; "-h"; "--verbose"; "-V"; "--guess-material-assocs"; "-g";
   "--npts"; "-n"; "--delta"; "-d"; "--binary"; "--ascii"].

(** The number of points, when set, is positive. *)
Definition npoints_positive (o : OptionsCompare.OptionsCompare) : Prop :=
  forall n, OptionsCompare.npoints o = Some n -> 0 < n.

(** What a [Statistics] looks like when only the success, failure and
    ignored counters were ever touched. *)
Definition counters_only (s : Statistics.Statistics) : Prop :=
  Statistics.failures s = [] /\
  Statistics.coveredRanks s = ∅ /\
  Statistics.nbOutside s = 0 /\
  Statistics.nbT4Volumes s = 0.

Section Lookups.
Context {MaterialKey : Type} `{Countable MaterialKey}.

(** What the body of the loop asks the target geometry about a record:
    the rank of the volume, its composition, the distance to its nearest
    surface. *)
Definition rank_of (g : Oracle.T4Geometry MaterialKey) (d : Oracle.PtracData MaterialKey) : Z :=
  Oracle.which_volume (Oracle.volumes g) (Oracle.pointXyz d).

Definition compo_of (g : Oracle.T4Geometry MaterialKey) (d : Oracle.PtracData MaterialKey) : string :=
  Oracle.get_name_from_volume (Oracle.volumes g) (rank_of g d).

Definition dist_of (g : Oracle.T4Geometry MaterialKey) (d : Oracle.PtracData MaterialKey) : CDouble.double :=
  Oracle.distanceFromSurface (Oracle.volumes g) (Oracle.pointXyz d) (rank_of g d).

(** The statistics a run ends with. *)
Definition end_stats (e : Oracle.RunEnd MaterialKey) : option Statistics.Statistics :=
  match e with
  | Oracle.Returned _ stats => Some stats
  | Oracle.Exited _ _ stats => Some stats
  | Oracle.Crashed => None
  end.

(** The equivalence map a run ends with. *)
Definition end_map (e : Oracle.RunEnd MaterialKey) : option (gmap MaterialKey string) :=
  match e with
  | Oracle.Returned g _ => Some (Oracle.equivalenceMap g)
  | Oracle.Exited _ g _ => Some (Oracle.equivalenceMap g)
  | Oracle.Crashed => None
  end.

(** What holds of the counters all along a run with the budget
    [nbSampledPts]: none is negative, together they count the records
    read, and no more records are read than the budget allows. *)
Definition counted (nbSampledPts : Z) (σ : Oracle.LoopState MaterialKey) : Prop :=
  let s := Oracle.stats σ in
  0 <= Statistics.nbSuccess s /\ 0 <= Statistics.nbFailure s /\
  0 <= Statistics.nbIgnored s /\ 0 <= Statistics.nbOutside s /\
  Statistics.nbSuccess s + Statistics.nbFailure s
    + Statistics.nbIgnored s + Statistics.nbOutside s
    = Oracle.nbPointsRead (Oracle.mcnpGeom σ) /\
  Oracle.nbPointsRead (Oracle.mcnpGeom σ) <= Z.max 0 nbSampledPts.

(** The composition the target geometry [t4] gives for the first of the
    records [done] that carries [key]. *)
Fixpoint first_sighting (t4 : Oracle.Volumes) (done : list (Oracle.PtracData MaterialKey))
    (key : MaterialKey) : option string :=
  match done with
  | [] => None
  | d :: rest =>
      if decide (Oracle.materialDensity d = key)
      then Some (Oracle.get_name_from_volume t4
                   (Oracle.which_volume t4 (Oracle.pointXyz d)))
      else first_sighting t4 rest key
  end.

(** The state one iteration after [σ] (or [σ] itself when the loop stops
    there). *)
Definition after (nbSampledPts : Z) (σ : Oracle.LoopState MaterialKey)
  : Oracle.LoopState MaterialKey :=
  match Oracle.iteration nbSampledPts σ with
  | Oracle.Continue σ' => σ'
  | _ => σ
  end.
End Lookups.

(** * Sample inputs *)
Module Sample.
Import Statistics Oracle.

(** A [Statistics] on which [recordFailure] was called twice and nothing
    else. *)
Definition two_failures : result Statistics :=
  s1 ← recordFailure [CDouble.of_Z 1; CDouble.of_Z 2; CDouble.of_Z 3] 4 1 7 2
                     CDouble.lit_100 Statistics.new;
  recordFailure [CDouble.of_Z 4; CDouble.of_Z 5; CDouble.of_Z 6] 4 2 7 2
                CDouble.lit_100 s1.

(** A [Statistics] with one failure, counted and recorded. *)
Definition failed_point : failedPoint :=
  {| position := (CDouble.of_Z 1, CDouble.of_Z 2, CDouble.of_Z 3);
     pointID := CDouble.of_Z 1;
     cellID := CDouble.of_Z 7;
     materialID := CDouble.of_Z 2;
     dist := CDouble.lit_100;
     rank := CDouble.of_Z 4 |}.

Definition one_failure : Statistics :=
  {| nbSuccess := 0; nbFailure := 1; nbIgnored := 0; nbOutside := 0;
     nbT4Volumes := 0; coveredRanks := ∅; failures := [failed_point] |}.

(** A command line that asks for help after naming a file, and ends
    with an option that lacks its value. *)
Definition argv_help : list string :=
  ["oracle"; "missing.t4"; "--help"; "-V"; "--delta"].

(** A stream extraction that knows three texts: a negative number, a
    positive one, and, as a library that reads the word does, a NaN; any
    other text is no number (zero is stored), and from the empty text
    nothing is extracted. *)
Definition extract (text : string) : option CDouble.double :=
  if (text =? "-1")%string then Some (CDouble.of_Z (-1))
  else if (text =? "2")%string then Some (CDouble.of_Z 2)
  else if (text =? "nan")%string then Some CDouble.nan
  else if (text =? "")%string then None
  else Some CDouble.zero.

Definition argv : list string :=
  ["oracle"; "--delta"; "-1"; "jdd.t4"; "jdd.inp"; "ptrac"].


(** [2.0e-7] and [5.0e-8]: the literal [1.0e-7] with its exponent moved
    by one. *)
Definition lit_2e_7 : CDouble.double := S754_finite false 7555786372591432 (-75).
Definition lit_5e_8 : CDouble.double := S754_finite false 7555786372591432 (-77).

(** A key is a material name with the text of its density. *)
Definition Key : Type := string * string.

Definition point (x : Z) : list CDouble.double :=
  [CDouble.of_Z x; CDouble.zero; CDouble.zero].

(** A target geometry along the x axis: fuel at [x = 1], water at
    [x = 2] (far from any surface), [x = 3] (near one) and [x = 4]
    (exactly at the tolerance), nothing elsewhere. *)
Definition slab : Volumes :=
  {| which_volume := fun p =>
       match p with
       | x :: _ =>
           if CDouble.eqb x (CDouble.of_Z 1) then 0
           else if CDouble.eqb x (CDouble.of_Z 2) then 1
           else if CDouble.eqb x (CDouble.of_Z 3) then 1
           else if CDouble.eqb x (CDouble.of_Z 4) then 1
           else -1
       | [] => -1
       end;
     get_name_from_volume := fun rank =>
       if rank =? 0 then "UO2" else if rank =? 1 then "H2O" else "";
     distanceFromSurface := fun p _ =>
       match p with
       | x :: _ =>
           if CDouble.eqb x (CDouble.of_Z 2) then lit_2e_7
           else if CDouble.eqb x (CDouble.of_Z 3) then lit_5e_8
           else if CDouble.eqb x (CDouble.of_Z 4) then CDouble.lit_1e_7
           else CDouble.lit_100
       | [] => CDouble.lit_100
       end |}.

Definition sample (x : Z) : PtracData Key :=
  {| pointXyz := point x; materialDensity := ("M1", "1.0") |}.

(** The engine with the tolerance [1.0e-7], before and after its first
    point. *)
Definition fresh : T4Geometry Key :=
  T4Geometry_new slab CDouble.lit_1e_7.

Definition learned : T4Geometry Key :=
  addEquivalence fresh ("M1", "1.0") "UO2".

(** The loop about to read [records], with the tolerance [1.0e-7], the
    budget of ten points and nothing learned or counted yet. *)
Definition start (records : list (PtracData Key)) : LoopState Key :=
  {| mcnpGeom := MCNPGeometry_new 10 records;
     t4Geom := fresh;
     stats := Statistics.new |}.

(** A record outside the slab followed by one inside; a first sighting
    followed by two mismatches. *)
Definition outside_first : list (PtracData Key) := [sample 5; sample 1].
Definition three_points : list (PtracData Key) := [sample 1; sample 2; sample 3].
Definition two_points : list (PtracData Key) := [sample 1; sample 2].

(** One and two iterations after [start three_points]. *)
Definition met_one : LoopState Key := after 10 (start three_points).
Definition met_two : LoopState Key := after 10 met_one.

(** The first states of [compare_geoms] over [three_points], with ten
    points asked for and ten announced by the input file. *)
Definition run_zero : LoopState Key := initial slab 10 three_points.
Definition run_one : LoopState Key := after (budget 10 10) run_zero.
Definition run_two : LoopState Key := after (budget 10 10) run_one.

(** Where [compare_geoms] ends over [two_points]: with its tolerance of
    zero the second point is a failure. *)
Definition two_points_end : RunEnd Key :=
  Returned (addEquivalence (T4Geometry_new slab CDouble.zero) ("M1", "1.0") "UO2")
           (incrementFailure (incrementSuccess Statistics.new)).
End Sample.

(** * Properties of the statistics *)
Section StatisticsFacts.
Import Statistics.

Lemma int_wrap_in_range z : CInt.in_range z -> CInt.int_wrap z = z.
Proof.
  unfold CInt.in_range, CInt.INT_MIN, CInt.INT_MAX, CInt.int_wrap.
  intros Hz. rewrite Z.mod_small; lia.
Qed.

Lemma int_wrap_range z : CInt.in_range (CInt.int_wrap z).
Proof.
  unfold CInt.in_range, CInt.INT_MIN, CInt.INT_MAX, CInt.int_wrap.
  pose proof (Z.mod_pos_bound (z + 2 ^ 31) (2 ^ 32)). lia.
Qed.

Lemma incr_below n : CInt.INT_MIN <= n < CInt.INT_MAX -> CInt.incr n = n + 1.
Proof.
  intros Hn. unfold CInt.incr. apply int_wrap_in_range.
  unfold CInt.in_range. lia.
Qed.

Lemma below_max_inv s :
  below_max s ->
  CInt.incr (nbSuccess s) = nbSuccess s + 1 /\
  CInt.incr (nbFailure s) = nbFailure s + 1 /\
  CInt.incr (nbIgnored s) = nbIgnored s + 1 /\
  CInt.incr (nbOutside s) = nbOutside s + 1.
Proof.
  unfold below_max. rewrite !Forall_cons.
  intros (Hs & Hf & Hi & Ho & _). auto using incr_below.
Qed.

(** C3 as the specification words it: [recordFailure] increments exactly
    one counter.  It fails on a fresh [Statistics]: the call returns with
    the four counters as they were. *)
Lemma recordFailure_counts_nothing :
  exists s',
    recordFailure [CDouble.zero; CDouble.zero; CDouble.zero] 0 1 1 1
                  CDouble.zero Statistics.new = Ret s' /\
    counters s' = counters Statistics.new /\
    nbFailure s' <> nbFailure Statistics.new + 1.
Proof.
  eexists. split; [reflexivity|]. split; [reflexivity|]. discriminate.
Qed.

(** C3, amended: each of the four increment operations adds one to its
    own counter and leaves the other three counters and the failure list
    as they were; [recordFailure] appends exactly one entry to the failure
    list and leaves the four counters as they were. *)
Theorem increments_and_recordFailure (s : Statistics) :
  below_max s ->
  (counters (incrementSuccess s)
     = (nbSuccess s + 1, nbFailure s, nbIgnored s, nbOutside s) /\
   failures (incrementSuccess s) = failures s) /\
  (counters (incrementFailure s)
     = (nbSuccess s, nbFailure s + 1, nbIgnored s, nbOutside s) /\
   failures (incrementFailure s) = failures s) /\
  (counters (incrementIgnore s)
     = (nbSuccess s, nbFailure s, nbIgnored s + 1, nbOutside s) /\
   failures (incrementIgnore s) = failures s) /\
  (counters (incrementOutside s)
     = (nbSuccess s, nbFailure s, nbIgnored s, nbOutside s + 1) /\
   failures (incrementOutside s) = failures s) /\
  (forall x y z more rank pointID cellID materialID dist,
      exists s' failed,
        recordFailure (x :: y :: z :: more) rank pointID cellID materialID dist s
          = Ret s' /\
        failures s' = failures s ++ [failed] /\
        Statistics.dist failed = dist /\
        counters s' = counters s).
Proof.
  intros Hs. destruct (below_max_inv s Hs) as (Es & Ef & Ei & Eo).
  unfold counters; simpl. rewrite Es, Ef, Ei, Eo.
  repeat split.
  intros. eexists. eexists. split; [reflexivity|]. simpl. auto.
Qed.

Lemma increments_and_recordFailure_witness :
  below_max Statistics.new /\
  counters (incrementFailure Statistics.new) = (0, 1, 0, 0).
Proof.
  assert (Hnew : below_max Statistics.new).
  { unfold below_max, CInt.INT_MIN, CInt.INT_MAX. simpl.
    repeat constructor; lia. }
  split; [exact Hnew|].
  exact (proj1 (proj1 (proj2 (increments_and_recordFailure Statistics.new Hnew)))).
Defined.

(** C4: with an empty failure list, [report] divides [0.] by
    [failures.size() = 0]: the mean it prints is a NaN and the maximum is
    zero. *)
Theorem report_without_failures (s : Statistics) :
  failures s = [] ->
  averageDist (report s) = CDouble.nan /\
  maxDist (report s) = CDouble.zero.
Proof.
  intros Hf. unfold report. rewrite Hf. simpl. split; reflexivity.
Qed.

Lemma report_without_failures_witness :
  failures Statistics.new = [] /\
  averageDist (report Statistics.new) = S754_nan /\
  maxDist (report Statistics.new) = S754_zero false.
Proof.
  split; [reflexivity|].
  exact (report_without_failures Statistics.new eq_refl).
Defined.

(** The rows [writeOutForVisu] stores are the first [nbFailure] entries
    of the failure list; the call is only defined when the list has that
    many. *)
Lemma store_loop_take fs todo i stored :
  store_loop fs i todo stored =
    if decide (todo = 0 \/ i + todo <= length fs)%nat
    then Ret (stored ++ take todo (drop i fs))
    else Undefined.
Proof.
  revert i stored. induction todo as [|todo IH]; intros i stored; cbn [store_loop].
  - destruct (decide _) as [_|Hn]; [|exfalso; auto].
    cbn. by rewrite app_nil_r.
  - destruct (fs !! i) as [fp|] eqn:Hi.
    + rewrite IH. pose proof (lookup_lt_Some _ _ _ Hi) as Hlt.
      rewrite (drop_S _ _ _ Hi). cbn [take]. rewrite <- app_assoc. cbn [app].
      destruct (decide (todo = 0 \/ S i + todo <= length fs)%nat);
        destruct (decide (S todo = 0 \/ i + S todo <= length fs)%nat);
        try lia; reflexivity.
    + apply lookup_ge_None in Hi.
      destruct (decide _) as [Hy|_]; [lia | reflexivity].
Qed.

Lemma writeOutForVisu_rows s fname out :
  writeOutForVisu s fname = Ret out ->
  rows out = take (Z.to_nat (nbFailure s)) (failures s) /\
  (Z.to_nat (nbFailure s) <= length (failures s))%nat.
Proof.
  unfold writeOutForVisu. destruct (getRawFileName fname) as [raw| | |]; try discriminate.
  cbn [mbind result_bind]. rewrite store_loop_take.
  destruct (decide _) as [Hle|]; [|discriminate].
  intros [= <-]. cbn [rows]. rewrite drop_0. split; [reflexivity | lia].
Qed.

(** C5: the export loop runs up to the counter [nbFailure], not up to the
    size of the failure list.  After two calls of [recordFailure] the list
    holds two entries, the counter is still zero, and the table gets no
    data row. *)
Theorem export_two_failures_no_row :
  exists s,
    Sample.two_failures = Ret s /\
    length (failures s) = 2%nat /\
    nbFailure s = 0 /\
    writeOutForVisu s "outputViz.txt" =
      Ret {| datFile := "outputViz.failedpoints.dat";
             columns := ["x"; "y"; "z"; "pointID"; "cellID"; "materialID";
                         "dist"; "rank"];
             rows := [];
             pointsFile :=
               {| path := "outputViz.points";
                  text := "name outputViz.failedpoints.general" +:+ String "010" "" |} |}.
Proof.
  eexists. split; [vm_compute; reflexivity|].
  split; [reflexivity|]. split; [reflexivity|]. vm_compute. reflexivity.
Qed.

(** The other way round: a counted failure that was never recorded makes
    the export read [failures[0]] of an empty vector. *)
Lemma export_counted_failure_undefined :
  writeOutForVisu (incrementFailure Statistics.new) "outputViz.txt" = Undefined.
Proof. vm_compute. reflexivity. Qed.

End StatisticsFacts.

(** * Properties of the command-line options *)
Section OptionsFacts.
Import OptionsCompare.

Lemma default_delta_positive : positive CDouble.lit_1e_7.
Proof. reflexivity. Qed.


End OptionsFacts.

(** * Properties of the equivalence engine *)
Section EngineFacts.
Import Statistics Oracle.
Context {MaterialKey : Type} `{Countable MaterialKey}.
Implicit Types (g : T4Geometry MaterialKey) (d : PtracData MaterialKey).
Implicit Types (s : Statistics) (σ : LoopState MaterialKey).

Lemma materialInMap_false g key :
  materialInMap g key = false <-> equivalenceMap g !! key = None.
Proof.
  unfold materialInMap. rewrite bool_decide_eq_false.
  symmetry. apply eq_None_not_Some.
Qed.

Lemma materialInMap_true g key :
  materialInMap g key = true <-> is_Some (equivalenceMap g !! key).
Proof. unfold materialInMap. apply bool_decide_eq_true. Qed.

Lemma weakEquivalence_true g key compo :
  weakEquivalence g key compo = true <-> equivalenceMap g !! key = Some compo.
Proof. unfold weakEquivalence. apply bool_decide_eq_true. Qed.

Lemma weakEquivalence_false g key compo :
  weakEquivalence g key compo = false <-> equivalenceMap g !! key <> Some compo.
Proof. unfold weakEquivalence. apply bool_decide_eq_false. Qed.

(** [x == y] on [double] entails [x <= y]. *)
Lemma double_eqb_leb (x y : CDouble.double) :
  CDouble.eqb x y = true -> CDouble.leb x y = true.
Proof.
  unfold CDouble.eqb, CDouble.leb, SFeqb, SFleb.
  destruct (SFcompare x y) as [[]|]; intros; congruence.
Qed.

(** ** The five branches of the loop body *)

Lemma loop_body_outside d g s :
  rank_of g d < 0 -> loop_body d g s = Exit EXIT_FAILURE.
Proof.
  unfold rank_of, loop_body. intros Hr.
  apply Z.ltb_lt in Hr. rewrite Hr. reflexivity.
Qed.

Lemma loop_body_first d g s :
  0 <= rank_of g d ->
  equivalenceMap g !! materialDensity d = None ->
  loop_body d g s =
    Ret (addEquivalence g (materialDensity d) (compo_of g d), incrementSuccess s).
Proof.
  unfold compo_of, rank_of, loop_body. intros Hr Hk.
  apply Z.ltb_ge in Hr. rewrite Hr.
  apply materialInMap_false in Hk. rewrite Hk. reflexivity.
Qed.

Lemma loop_body_same d g s :
  0 <= rank_of g d ->
  equivalenceMap g !! materialDensity d = Some (compo_of g d) ->
  loop_body d g s = Ret (g, incrementSuccess s).
Proof.
  unfold compo_of, rank_of, loop_body. intros Hr Hk.
  apply Z.ltb_ge in Hr. rewrite Hr.
  assert (Hin : materialInMap g (materialDensity d) = true)
    by (apply materialInMap_true; eauto).
  rewrite Hin. cbn [negb]. apply weakEquivalence_true in Hk. rewrite Hk.
  reflexivity.
Qed.

Lemma loop_body_mismatch d g s expected :
  0 <= rank_of g d ->
  equivalenceMap g !! materialDensity d = Some expected ->
  expected <> compo_of g d ->
  loop_body d g s =
    if CDouble.leb (dist_of g d) (delta g)
    then Ret (g, incrementIgnore s)
    else Ret (g, incrementFailure s).
Proof.
  unfold compo_of, dist_of, rank_of, loop_body. intros Hr Hk Hne.
  apply Z.ltb_ge in Hr. rewrite Hr.
  assert (Hin : materialInMap g (materialDensity d) = true)
    by (apply materialInMap_true; eauto).
  rewrite Hin. cbn [negb].
  assert (Hweak : weakEquivalence g (materialDensity d)
            (get_name_from_volume (volumes g)
               (which_volume (volumes g) (pointXyz d))) = false).
  { apply weakEquivalence_false. rewrite Hk. congruence. }
  rewrite Hweak. unfold isPointNearSurface. reflexivity.
Qed.

(** C1: a point inside the target geometry is a success that defines the
    correspondence when its key is new, a success when the stored
    composition is the one observed, and on a mismatch it is ignored when
    the distance to the surface is at most the tolerance and a failure
    otherwise. *)
Theorem classify_point d g s :
  0 <= rank_of g d ->
  (equivalenceMap g !! materialDensity d = None ->
   loop_body d g s =
     Ret (addEquivalence g (materialDensity d) (compo_of g d), incrementSuccess s) /\
   equivalenceMap (addEquivalence g (materialDensity d) (compo_of g d))
     = <[materialDensity d := compo_of g d]> (equivalenceMap g)) /\
  (equivalenceMap g !! materialDensity d = Some (compo_of g d) ->
   loop_body d g s = Ret (g, incrementSuccess s)) /\
  (forall expected,
      equivalenceMap g !! materialDensity d = Some expected ->
      expected <> compo_of g d ->
      (CDouble.leb (dist_of g d) (delta g) = true ->
       loop_body d g s = Ret (g, incrementIgnore s)) /\
      (CDouble.leb (dist_of g d) (delta g) = false ->
       loop_body d g s = Ret (g, incrementFailure s))).
Proof.
  intros Hr. split; [|split].
  - intros Hk. split; [by apply loop_body_first | reflexivity].
  - by apply loop_body_same.
  - intros expected Hk Hne.
    rewrite (loop_body_mismatch d g s expected Hr Hk Hne).
    split; intros ->; reflexivity.
Qed.

(** C8: a mismatching point whose distance to the surface equals the
    tolerance is ignored: the ignored counter is the one incremented, and
    the rule for a failure does not apply. *)
Theorem boundary_point_ignored d g s expected :
  0 <= rank_of g d ->
  equivalenceMap g !! materialDensity d = Some expected ->
  expected <> compo_of g d ->
  CDouble.eqb (dist_of g d) (delta g) = true ->
  loop_body d g s = Ret (g, incrementIgnore s) /\
  classify g d Ignored g /\
  (forall g', ~ classify g d Failure g').
Proof.
  intros Hr Hk Hne Heq. apply double_eqb_leb in Heq.
  assert (Hin : materialInMap g (materialDensity d) = true)
    by (apply materialInMap_true; eauto).
  assert (Hweak : weakEquivalence g (materialDensity d) (compo_of g d) = false).
  { apply weakEquivalence_false. rewrite Hk. congruence. }
  split; [|split].
  - rewrite (loop_body_mismatch d g s expected Hr Hk Hne), Heq. reflexivity.
  - by apply classify_near.
  - intros g' Hfar. inversion Hfar as [| | | |_ _ _ Hnear]; subst.
    unfold isPointNearSurface in Hnear. unfold dist_of, rank_of in Heq.
    congruence.
Qed.

End EngineFacts.

(** * Properties of a whole run *)
Section RunFacts.
Import Statistics Oracle.
Context {MaterialKey : Type} `{Countable MaterialKey}.
Implicit Types (g : T4Geometry MaterialKey) (d : PtracData MaterialKey).
Implicit Types (s : Statistics) (σ : LoopState MaterialKey).
Implicit Types (records : list (PtracData MaterialKey)).

(** The loop body returns or exits; it has no other end. *)
Lemma loop_body_cases d g s :
  (rank_of g d < 0 /\ loop_body d g s = Exit EXIT_FAILURE) \/
  (0 <= rank_of g d /\
   exists g' s', loop_body d g s = Ret (g', s') /\
     (s' = incrementSuccess s \/ s' = incrementIgnore s \/ s' = incrementFailure s) /\
     (g' = g \/
      equivalenceMap g !! materialDensity d = None /\
      g' = addEquivalence g (materialDensity d) (compo_of g d))).
Proof.
  destruct (Z.lt_ge_cases (rank_of g d) 0) as [Hr|Hr].
  - left. split; [exact Hr | by apply loop_body_outside].
  - right. split; [exact Hr|].
    destruct (equivalenceMap g !! materialDensity d) as [expected|] eqn:Hk.
    + destruct (decide (expected = compo_of g d)) as [->|Hne].
      * rewrite (loop_body_same d g s Hr Hk). eauto 10.
      * rewrite (loop_body_mismatch d g s expected Hr Hk Hne).
        destruct (CDouble.leb _ _); eauto 10.
    + rewrite (loop_body_first d g s Hr Hk). eauto 10.
Qed.

(** The recursive loop, unfolded once through [readNextPtracData]. *)
Lemma run_from_unfold nb σ :
  run_from nb σ =
    match readNextPtracData nb (mcnpGeom σ) with
    | None => Returned (t4Geom σ) (stats σ)
    | Some (d, m') =>
        match loop_body d (t4Geom σ) (stats σ) with
        | Ret (g', s') => run_from nb {| mcnpGeom := m'; t4Geom := g'; stats := s' |}
        | Exit status => Exited status (t4Geom σ) (stats σ)
        | _ => Crashed
        end
    end.
Proof.
  destruct σ as [[n recs nread] g s]. unfold run_from, readNextPtracData. simpl.
  destruct recs as [|d rest]; simpl; destruct (nb <=? nread); reflexivity.
Qed.

Lemma run_from_iteration nb σ :
  run_from nb σ =
    match iteration nb σ with
    | Continue σ' => run_from nb σ'
    | Stop => Returned (t4Geom σ) (stats σ)
    | Abort status => Exited status (t4Geom σ) (stats σ)
    | Fault => Crashed
    end.
Proof.
  rewrite run_from_unfold. unfold iteration.
  destruct (readNextPtracData nb (mcnpGeom σ)) as [[d m']|]; [|reflexivity].
  destruct (loop_body d (t4Geom σ) (stats σ)) as [[g' s']| | |]; reflexivity.
Qed.

Lemma compare_geoms_run_from npoints t4 inpNPS records :
  compare_geoms npoints t4 inpNPS records
    = run_from (budget npoints inpNPS) (initial t4 inpNPS records).
Proof. reflexivity. Qed.

Lemma readNextPtracData_Some nb (m m' : MCNPGeometry MaterialKey) d :
  readNextPtracData nb m = Some (d, m') ->
  nbPointsRead m < nb /\
  unread m = d :: unread m' /\
  nbPointsRead m' = nbPointsRead m + 1.
Proof.
  unfold readNextPtracData. destruct (Z.leb_spec nb (nbPointsRead m)); [discriminate|].
  destruct (unread m) as [|d0 rest]; [discriminate|].
  intros [= <- <-]. simpl. auto.
Qed.

(** C2, amended: when the lookup of a point finds no volume, the run ends
    there with the failure status: no later point is read, and the
    statistics and the map are left as the earlier points made them (no
    counter is incremented for the point). *)
Theorem outside_point_exits nb σ d m' :
  readNextPtracData nb (mcnpGeom σ) = Some (d, m') ->
  rank_of (t4Geom σ) d < 0 ->
  iteration nb σ = Abort EXIT_FAILURE /\
  run_from nb σ = Exited EXIT_FAILURE (t4Geom σ) (stats σ).
Proof.
  intros Hread Hr.
  assert (Hit : iteration nb σ = Abort EXIT_FAILURE).
  { unfold iteration. rewrite Hread, (loop_body_outside _ _ _ Hr). reflexivity. }
  split; [exact Hit|]. rewrite run_from_iteration, Hit. reflexivity.
Qed.

(** ** The map is written once *)

Lemma step_map_grows nb σ σ' key compo :
  step nb σ σ' ->
  equivalenceMap (t4Geom σ) !! key = Some compo ->
  equivalenceMap (t4Geom σ') !! key = Some compo.
Proof.
  unfold step, iteration.
  destruct (readNextPtracData nb (mcnpGeom σ)) as [[d m']|]; [|discriminate].
  destruct (loop_body_cases d (t4Geom σ) (stats σ))
    as [[_ ->]|[_ (g' & s' & -> & _ & Hg)]]; [discriminate|].
  intros [= <-] Hk. simpl.
  destruct Hg as [->|[Hnew ->]]; [exact Hk|]. simpl.
  rewrite lookup_insert_ne; [exact Hk|]. intros Heq. rewrite Heq in Hnew. congruence.
Qed.

Lemma steps_map_grow nb σ σ' key compo :
  rtc (step nb) σ σ' ->
  equivalenceMap (t4Geom σ) !! key = Some compo ->
  equivalenceMap (t4Geom σ') !! key = Some compo.
Proof.
  induction 1 as [|σ1 σ2 σ3 Hstep _ IH]; [auto|].
  intros Hk. apply IH. by eapply step_map_grows.
Qed.

(** The loop always ends, with a return or an exit, in a state that the
    iterations reach. *)
Lemma run_from_reaches nb σ :
  exists σ',
    rtc (step nb) σ σ' /\
    (run_from nb σ = Returned (t4Geom σ') (stats σ') \/
     run_from nb σ = Exited EXIT_FAILURE (t4Geom σ') (stats σ')).
Proof.
  remember (unread (mcnpGeom σ)) as recs eqn:Hrecs.
  revert σ Hrecs. induction recs as [|d0 rest IH]; intros σ Hrecs;
    rewrite run_from_unfold;
    destruct (readNextPtracData nb (mcnpGeom σ)) as [[d m']|] eqn:Hread;
    try (exists σ; split; [apply rtc_refl | left; reflexivity]).
  - apply readNextPtracData_Some in Hread as (_ & Hun & _). congruence.
  - destruct (loop_body_cases d (t4Geom σ) (stats σ))
      as [[_ Hb]|[_ (g' & s' & Hb & _)]]; rewrite Hb.
    + exists σ. split; [apply rtc_refl | right; reflexivity].
    + destruct (IH {| mcnpGeom := m'; t4Geom := g'; stats := s' |})
        as (σ' & Hsteps & Hend).
      { apply readNextPtracData_Some in Hread as (_ & Hun & _).
        simpl. congruence. }
      exists σ'. split; [|exact Hend].
      eapply rtc_l; [|exact Hsteps].
      unfold step, iteration. rewrite Hread, Hb. reflexivity.
Qed.

(** C6: an entry of the equivalence map, once present, is present with
    the same composition at every later point of the run and at its
    end. *)
Theorem equivalence_map_write_once nb σ σ' key compo :
  rtc (step nb) σ σ' ->
  equivalenceMap (t4Geom σ) !! key = Some compo ->
  equivalenceMap (t4Geom σ') !! key = Some compo /\
  exists final,
    end_map (run_from nb σ) = Some final /\ final !! key = Some compo.
Proof.
  intros Hsteps Hk. split; [by eapply steps_map_grow|].
  destruct (run_from_reaches nb σ) as (σe & Hreach & [-> | ->]);
    simpl; eexists; (split; [reflexivity|]); by eapply steps_map_grow.
Qed.

End RunFacts.

(** C2, as the specification words it: the outside counter is incremented
    before the run ends.  On a run whose first point lies outside the
    target geometry the run ends with the failure status and the counter
    is still zero. *)
Lemma outside_point_not_counted :
  exists g s,
    Oracle.compare_geoms 10 Sample.slab 10 [Sample.sample 5; Sample.sample 1]
      = Oracle.Exited EXIT_FAILURE g s /\
    Statistics.nbOutside s = 0 /\
    Statistics.nbOutside s <> Statistics.nbOutside Statistics.new + 1.
Proof.
  exists (Oracle.T4Geometry_new Sample.slab CDouble.zero), Statistics.new.
  split; [reflexivity|]. split; [reflexivity | discriminate].
Qed.

(** * The counters along a run *)
Section CounterFacts.
Import Statistics Oracle.
Context {MaterialKey : Type} `{Countable MaterialKey}.
Implicit Types (g : T4Geometry MaterialKey) (d : PtracData MaterialKey).
Implicit Types (s : Statistics) (σ : LoopState MaterialKey).
Implicit Types (records : list (PtracData MaterialKey)).

(** Linear arithmetic with the bounds of [int] spelled out. *)
Ltac int_lia := unfold CInt.in_range, CInt.INT_MIN, CInt.INT_MAX in *; lia.

Lemma budget_in_range npoints inpNPS : CInt.in_range (budget npoints inpNPS).
Proof. apply int_wrap_range. Qed.

Lemma counted_initial nb t4 inpNPS records :
  counted nb (initial t4 inpNPS records).
Proof. unfold counted. simpl. lia. Qed.

(** One iteration keeps the counters consistent and lowers none. *)
Lemma counted_step nb σ σ' :
  CInt.in_range nb ->
  counted nb σ ->
  step nb σ σ' ->
  counted nb σ' /\
  nbSuccess (stats σ) <= nbSuccess (stats σ') /\
  nbFailure (stats σ) <= nbFailure (stats σ') /\
  nbIgnored (stats σ) <= nbIgnored (stats σ') /\
  nbOutside (stats σ) <= nbOutside (stats σ').
Proof.
  unfold CInt.in_range, counted, step, iteration.
  intros Hnb (Hs & Hf & Hi & Ho & Hsum & Hread).
  destruct (readNextPtracData nb (mcnpGeom σ)) as [[d m']|] eqn:Hnext;
    [|discriminate].
  apply readNextPtracData_Some in Hnext as (Hlt & _ & Hcount).
  destruct (loop_body_cases d (t4Geom σ) (stats σ))
    as [[_ ->]|[_ (g' & s' & -> & Hs' & _)]]; [discriminate|].
  intros [= <-]. simpl. rewrite Hcount.
  destruct Hs' as [->|[->| ->]]; simpl;
    rewrite incr_below by int_lia; int_lia.
Qed.

Lemma counted_steps nb σ σ' :
  CInt.in_range nb ->
  counted nb σ ->
  rtc (step nb) σ σ' ->
  counted nb σ' /\
  nbSuccess (stats σ) <= nbSuccess (stats σ') /\
  nbFailure (stats σ) <= nbFailure (stats σ') /\
  nbIgnored (stats σ) <= nbIgnored (stats σ') /\
  nbOutside (stats σ) <= nbOutside (stats σ').
Proof.
  intros Hnb Hc Hsteps. induction Hsteps as [σ|σ1 σ2 σ3 Hstep _ IH].
  - split; [exact Hc | lia].
  - destruct (counted_step nb σ1 σ2 Hnb Hc Hstep) as (Hc2 & Hm).
    destruct (IH Hc2) as (Hc3 & Hm'). split; [exact Hc3 | lia].
Qed.

Lemma counted_total nb σ :
  CInt.in_range nb ->
  counted nb σ ->
  getTotalPts (stats σ) =
    nbSuccess (stats σ) + nbFailure (stats σ)
    + nbIgnored (stats σ) + nbOutside (stats σ).
Proof.
  unfold CInt.in_range, counted, getTotalPts, CInt.add.
  intros Hnb (Hs & Hf & Hi & Ho & Hsum & Hread).
  assert (Hmax : 0 `max` nb <= CInt.INT_MAX) by int_lia.
  rewrite (int_wrap_in_range (_ + nbFailure _)) by int_lia.
  rewrite (int_wrap_in_range (_ + nbIgnored _)) by int_lia.
  apply int_wrap_in_range. int_lia.
Qed.

(** C7: at every point of a run of [compare_geoms] the total is the sum
    of the four counters, and from any point of the run to any later one
    no counter decreases. *)
Theorem counters_consistent npoints t4 inpNPS records σ σ' :
  rtc (step (budget npoints inpNPS)) (initial t4 inpNPS records) σ ->
  rtc (step (budget npoints inpNPS)) σ σ' ->
  getTotalPts (stats σ) =
    nbSuccess (stats σ) + nbFailure (stats σ)
    + nbIgnored (stats σ) + nbOutside (stats σ) /\
  nbSuccess (stats σ) <= nbSuccess (stats σ') /\
  nbFailure (stats σ) <= nbFailure (stats σ') /\
  nbIgnored (stats σ) <= nbIgnored (stats σ') /\
  nbOutside (stats σ) <= nbOutside (stats σ').
Proof.
  intros Hreach Hlater.
  pose proof (budget_in_range npoints inpNPS) as Hnb.
  destruct (counted_steps _ _ _ Hnb (counted_initial _ t4 inpNPS records) Hreach)
    as (Hc & _).
  split; [by eapply counted_total|].
  by destruct (counted_steps _ _ _ Hnb Hc Hlater) as (_ & Hm).
Qed.

(** The statistics a run ends with are those of a point of the run, so
    the total [report] prints is the sum of the four counters as well. *)
Lemma compare_geoms_total npoints t4 inpNPS records :
  exists s,
    end_stats (compare_geoms npoints t4 inpNPS records) = Some s /\
    getTotalPts s = nbSuccess s + nbFailure s + nbIgnored s + nbOutside s.
Proof.
  rewrite compare_geoms_run_from.
  destruct (run_from_reaches (budget npoints inpNPS) (initial t4 inpNPS records))
    as (σ & Hreach & Hend).
  pose proof (budget_in_range npoints inpNPS) as Hnb.
  destruct (counted_steps _ _ _ Hnb (counted_initial _ t4 inpNPS records) Hreach)
    as (Hc & _).
  exists (stats σ). split; [|by eapply counted_total].
  destruct Hend as [-> | ->]; reflexivity.
Qed.

End CounterFacts.

(** * Runs as derivations *)
Section Determinism.
Import Statistics Oracle.
Context {MaterialKey : Type} `{Countable MaterialKey}.
Implicit Types (g : T4Geometry MaterialKey) (d : PtracData MaterialKey).
Implicit Types (s : Statistics) (σ : LoopState MaterialKey).
Implicit Types (records : list (PtracData MaterialKey)).

(** Each rule of [classify] is one branch of the loop body. *)
Lemma classify_loop_body g d o g' s :
  classify g d o g' ->
  loop_body d g s =
    match o with
    | Outside => Exit EXIT_FAILURE
    | _ => Ret (g', record o s)
    end.
Proof.
  intros Hc. unfold loop_body.
  destruct Hc as [Hr|Hr Hin|Hr Hin Hw|Hr Hin Hw Hn|Hr Hin Hw Hn].
  - apply Z.ltb_lt in Hr. rewrite Hr. reflexivity.
  - apply Z.ltb_ge in Hr. rewrite Hr, Hin. reflexivity.
  - apply Z.ltb_ge in Hr. rewrite Hr, Hin, Hw. reflexivity.
  - apply Z.ltb_ge in Hr. rewrite Hr, Hin, Hw, Hn. reflexivity.
  - apply Z.ltb_ge in Hr. rewrite Hr, Hin, Hw, Hn. reflexivity.
Qed.

(** The rules exclude one another. *)
Lemma classify_deterministic g d o1 g1 o2 g2 :
  classify g d o1 g1 -> classify g d o2 g2 -> o1 = o2 /\ g1 = g2.
Proof.
  intros H1 H2.
  destruct H1; inversion H2; subst; try (split; reflexivity);
    try lia; congruence.
Qed.

(** Some rule always applies. *)
Lemma classify_total g d : exists o g', classify g d o g'.
Proof.
  destruct (Z.lt_ge_cases (which_volume (volumes g) (pointXyz d)) 0) as [Hr|Hr].
  { eauto using classify_outside. }
  destruct (materialInMap g (materialDensity d)) eqn:Hin.
  2: { eauto using classify_first. }
  destruct (weakEquivalence g (materialDensity d)
              (get_name_from_volume (volumes g)
                 (which_volume (volumes g) (pointXyz d)))) eqn:Hw.
  { eauto using classify_same. }
  destruct (isPointNearSurface g (pointXyz d)
              (which_volume (volumes g) (pointXyz d))) eqn:Hn.
  - eauto using classify_near.
  - eauto using classify_far.
Qed.

(** A derivation ends where the loop ends. *)
Lemma run_sound nb σ os e : run nb σ os e -> e = run_from nb σ.
Proof.
  induction 1 as [σ Hread|σ d m' g' Hread Hc|σ d m' o g' os e Hread Hc Ho _ IH];
    rewrite run_from_unfold, Hread.
  - reflexivity.
  - rewrite (classify_loop_body _ _ _ _ (stats σ) Hc). reflexivity.
  - rewrite (classify_loop_body _ _ _ _ (stats σ) Hc).
    destruct o; try contradiction; exact IH.
Qed.

Lemma run_deterministic nb σ os1 e1 os2 e2 :
  run nb σ os1 e1 -> run nb σ os2 e2 -> os1 = os2 /\ e1 = e2.
Proof.
  intros H1. revert os2 e2.
  induction H1 as [σ Hread|σ d m' g' Hread Hc|σ d m' o g' os e Hread Hc Ho _ IH];
    intros os2 e2 H2; inversion H2 as [? Hread2|? d2 m2 g2 Hread2 Hc2
                                      |? d2 m2 o2 g2 os' e' Hread2 Hc2 Ho2 Hrest];
    subst; try congruence.
  - split; reflexivity.
  - split; reflexivity.
  - rewrite Hread in Hread2. injection Hread2 as <- <-.
    destruct (classify_deterministic _ _ _ _ _ _ Hc Hc2) as [<- _].
    contradiction.
  - rewrite Hread in Hread2. injection Hread2 as <- <-.
    destruct (classify_deterministic _ _ _ _ _ _ Hc Hc2) as [-> _].
    contradiction.
  - rewrite Hread in Hread2. injection Hread2 as <- <-.
    destruct (classify_deterministic _ _ _ _ _ _ Hc Hc2) as [<- <-].
    destruct (IH _ _ Hrest) as [<- <-]. split; reflexivity.
Qed.

(** Every run has a derivation. *)
Lemma run_total nb σ : exists os e, run nb σ os e.
Proof.
  remember (unread (mcnpGeom σ)) as recs eqn:Hrecs.
  revert σ Hrecs. induction recs as [|d0 rest IH]; intros σ Hrecs;
    destruct (readNextPtracData nb (mcnpGeom σ)) as [[d m']|] eqn:Hread;
    try (eexists; eexists; apply run_stop; exact Hread).
  - apply readNextPtracData_Some in Hread as (_ & Hun & _). congruence.
  - destruct (classify_total (t4Geom σ) d) as (o & g' & Hc).
    assert (Hcase : o = Outside \/ o <> Outside)
      by (destruct o; auto; right; discriminate).
    destruct Hcase as [->|Ho].
    + eexists. eexists. eapply run_exit; eauto.
    + destruct (IH {| mcnpGeom := m'; t4Geom := g'; stats := record o (stats σ) |})
        as (os & e & Hrun).
      { pose proof Hread as Hread'.
        apply readNextPtracData_Some in Hread' as (_ & Hun & _).
        simpl. congruence. }
      eexists. eexists. eapply run_next; eauto.
Qed.

(** C9: two runs over the same records and the same target lookups, each
    started on the empty map and the zeroed statistics, make the same
    classifications in the same order and end alike, with the same
    counters; that common end is the one [compare_geoms] computes. *)
Theorem runs_deterministic npoints t4 inpNPS records os1 e1 os2 e2 :
  run (budget npoints inpNPS) (initial t4 inpNPS records) os1 e1 ->
  run (budget npoints inpNPS) (initial t4 inpNPS records) os2 e2 ->
  os1 = os2 /\
  e1 = e2 /\
  (counters <$> end_stats e1) = (counters <$> end_stats e2) /\
  e1 = compare_geoms npoints t4 inpNPS records.
Proof.
  intros H1 H2. destruct (run_deterministic _ _ _ _ _ _ H1 H2) as [-> ->].
  repeat split. rewrite compare_geoms_run_from. exact (run_sound _ _ _ _ H2).
Qed.

End Determinism.

(** * The theorems at the sample inputs *)
Section Samples.
Import Statistics Oracle.

(** Two sightings of fuel, a mismatch far from the surface, a mismatch
    near it, then a point outside the slab: two successes, one failure,
    one ignored point, one entry in the map, and the run ends before the
    last record is read. *)
Example five_points_then_exit :
  run_from 10 (Sample.start [Sample.sample 1; Sample.sample 1; Sample.sample 2;
                             Sample.sample 3; Sample.sample 5; Sample.sample 1])
    = Exited EXIT_FAILURE Sample.learned
        (incrementIgnore
           (incrementFailure
              (incrementSuccess (incrementSuccess Statistics.new)))).
Proof. reflexivity. Qed.

(** The first point of the slab defines the correspondence. *)
Lemma classify_point_witness :
  0 <= rank_of Sample.fresh (Sample.sample 1) /\
  loop_body (Sample.sample 1) Sample.fresh Statistics.new
    = Ret (Sample.learned, incrementSuccess Statistics.new).
Proof.
  assert (Hr : 0 <= rank_of Sample.fresh (Sample.sample 1))
    by (vm_compute; discriminate).
  split; [exact Hr|].
  exact (proj1 (proj1 (classify_point (Sample.sample 1) Sample.fresh
                         Statistics.new Hr) eq_refl)).
Defined.

(** The point at [x = 4] is water where fuel is expected, at exactly the
    tolerance from the surface. *)
Lemma boundary_point_ignored_witness :
  0 <= rank_of Sample.learned (Sample.sample 4) /\
  equivalenceMap Sample.learned !! materialDensity (Sample.sample 4) = Some "UO2" /\
  "UO2" <> compo_of Sample.learned (Sample.sample 4) /\
  CDouble.eqb (dist_of Sample.learned (Sample.sample 4)) (delta Sample.learned) = true /\
  loop_body (Sample.sample 4) Sample.learned Statistics.new
    = Ret (Sample.learned, incrementIgnore Statistics.new).
Proof.
  assert (Hr : 0 <= rank_of Sample.learned (Sample.sample 4))
    by (vm_compute; discriminate).
  assert (Hk : equivalenceMap Sample.learned !! materialDensity (Sample.sample 4)
               = Some "UO2") by reflexivity.
  assert (Hne : "UO2" <> compo_of Sample.learned (Sample.sample 4))
    by (vm_compute; discriminate).
  assert (Heq : CDouble.eqb (dist_of Sample.learned (Sample.sample 4))
                            (delta Sample.learned) = true) by reflexivity.
  repeat (split; [assumption|]).
  exact (proj1 (boundary_point_ignored (Sample.sample 4) Sample.learned
                  Statistics.new "UO2" Hr Hk Hne Heq)).
Defined.

(** A run whose first record lies outside the slab. *)
Lemma outside_point_exits_witness :
  readNextPtracData 10 (mcnpGeom (Sample.start Sample.outside_first))
    = Some (Sample.sample 5,
            {| nps := 10; unread := [Sample.sample 1]; nbPointsRead := 1 |}) /\
  rank_of (t4Geom (Sample.start Sample.outside_first)) (Sample.sample 5) < 0 /\
  run_from 10 (Sample.start Sample.outside_first)
    = Exited EXIT_FAILURE Sample.fresh Statistics.new.
Proof.
  assert (Hread : readNextPtracData 10 (mcnpGeom (Sample.start Sample.outside_first))
            = Some (Sample.sample 5,
                    {| nps := 10; unread := [Sample.sample 1]; nbPointsRead := 1 |}))
    by reflexivity.
  assert (Hr : rank_of (t4Geom (Sample.start Sample.outside_first))
                       (Sample.sample 5) < 0) by (vm_compute; reflexivity).
  split; [exact Hread|]. split; [exact Hr|].
  exact (proj2 (outside_point_exits 10 _ _ _ Hread Hr)).
Defined.

(** The entry made by the first point is still there after the second. *)
Lemma equivalence_map_write_once_witness :
  rtc (step 10) Sample.met_one Sample.met_two /\
  equivalenceMap (t4Geom Sample.met_one) !! ("M1", "1.0") = Some "UO2" /\
  equivalenceMap (t4Geom Sample.met_two) !! ("M1", "1.0") = Some "UO2".
Proof.
  assert (Hsteps : rtc (step 10) Sample.met_one Sample.met_two)
    by (apply rtc_once; reflexivity).
  assert (Hk : equivalenceMap (t4Geom Sample.met_one) !! ("M1", "1.0") = Some "UO2")
    by reflexivity.
  split; [exact Hsteps|]. split; [exact Hk|].
  exact (proj1 (equivalence_map_write_once 10 Sample.met_one Sample.met_two
                  _ _ Hsteps Hk)).
Defined.

(** One and two iterations into a run of [compare_geoms]. *)
Lemma counters_consistent_witness :
  rtc (step (budget 10 10)) (initial Sample.slab 10 Sample.three_points)
      Sample.run_one /\
  rtc (step (budget 10 10)) Sample.run_one Sample.run_two /\
  getTotalPts (stats Sample.run_one) =
    nbSuccess (stats Sample.run_one) + nbFailure (stats Sample.run_one)
    + nbIgnored (stats Sample.run_one) + nbOutside (stats Sample.run_one) /\
  nbSuccess (stats Sample.run_one) <= nbSuccess (stats Sample.run_two) /\
  nbFailure (stats Sample.run_one) <= nbFailure (stats Sample.run_two) /\
  nbIgnored (stats Sample.run_one) <= nbIgnored (stats Sample.run_two) /\
  nbOutside (stats Sample.run_one) <= nbOutside (stats Sample.run_two).
Proof.
  assert (H01 : rtc (step (budget 10 10))
                    (initial Sample.slab 10 Sample.three_points) Sample.run_one)
    by (apply rtc_once; reflexivity).
  assert (H12 : rtc (step (budget 10 10)) Sample.run_one Sample.run_two)
    by (apply rtc_once; reflexivity).
  split; [exact H01|]. split; [exact H12|].
  exact (counters_consistent 10 Sample.slab 10 Sample.three_points
           Sample.run_one Sample.run_two H01 H12).
Defined.

(** The derivation of the run of [compare_geoms] over a first sighting
    and a mismatch far from the surface. *)
Lemma runs_deterministic_witness :
  run (budget 10 10) (initial Sample.slab 10 Sample.two_points)
      [Success; Failure] Sample.two_points_end /\
  Sample.two_points_end = compare_geoms 10 Sample.slab 10 Sample.two_points.
Proof.
  assert (Hrun : run (budget 10 10) (initial Sample.slab 10 Sample.two_points)
                     [Success; Failure] Sample.two_points_end).
  { eapply run_next with (d := Sample.sample 1) (o := Success);
      [reflexivity | | discriminate | ].
    { apply classify_first; [vm_compute; discriminate | reflexivity]. }
    eapply run_next with (d := Sample.sample 2) (o := Failure);
      [reflexivity | | discriminate | ].
    { apply classify_far; [vm_compute; discriminate | reflexivity..]. }
    apply run_stop. reflexivity. }
  split; [exact Hrun|].
  exact (proj2 (proj2 (proj2 (runs_deterministic 10 Sample.slab 10 Sample.two_points
                                _ _ _ _ Hrun Hrun)))).
Defined.

(** What [main] does after a run with one failure: [compare_geoms] has
    counted the failure without recording it, so the export reads
    [failures[0]] of an empty vector. *)
Lemma export_after_run_undefined :
  exists s,
    end_stats (compare_geoms 10 Sample.slab 10 Sample.two_points) = Some s /\
    nbFailure s = 1 /\
    failures s = [] /\
    writeOutForVisu s "outputViz.txt" = Undefined.
Proof.
  exists (incrementFailure (incrementSuccess Statistics.new)).
  repeat split; reflexivity.
Qed.

End Samples.

(** * File names *)
Section FileNames.
Import Statistics.
Local Open Scope nat_scope.

Lemma find_last_of_from_shift chars s i last :
  StdString.find_last_of_from chars s i last =
    match StdString.find_last_of_from chars s 0 None with
    | Some k => Some (i + k)
    | None => last
    end.
Proof.
  revert i last. induction s as [|c s IH]; intros i last; simpl; [reflexivity|].
  rewrite (IH (S i)), (IH 1).
  destruct (StdString.find_last_of_from chars s 0 None) as [k|].
  - f_equal. lia.
  - destruct (StdString.mem c chars); [f_equal; lia | reflexivity].
Qed.

Lemma find_last_of_cons c s chars :
  StdString.find_last_of (String c s) chars =
    match StdString.find_last_of s chars with
    | Some k => Some (S k)
    | None => if StdString.mem c chars then Some 0 else None
    end.
Proof.
  unfold StdString.find_last_of. simpl. rewrite find_last_of_from_shift.
  destruct (StdString.find_last_of_from chars s 0 None); reflexivity.
Qed.

Lemma find_last_of_None s chars :
  StdString.find_last_of s chars = None <->
  (forall j c, get j s = Some c -> StdString.mem c chars = false).
Proof.
  induction s as [|c s IH]; [split; [intros _ [|j] ?; discriminate | reflexivity]|].
  rewrite find_last_of_cons. split.
  - destruct (StdString.find_last_of s chars); [discriminate|].
    destruct (StdString.mem c chars) eqn:Hc; [discriminate|].
    intros _ [|j] c'; simpl; [congruence|]. apply IH. reflexivity.
  - intros Hall.
    assert (Hs : StdString.find_last_of s chars = None).
    { apply IH. intros j c' Hj. apply (Hall (S j)). exact Hj. }
    rewrite Hs, (Hall 0 c eq_refl). reflexivity.
Qed.

(** The index found holds a character of the set, and no later index
    does. *)
Lemma find_last_of_Some s chars k :
  StdString.find_last_of s chars = Some k ->
  (exists c, get k s = Some c /\ StdString.mem c chars = true) /\
  (forall j c, k < j -> get j s = Some c -> StdString.mem c chars = false).
Proof.
  revert k. induction s as [|c s IH]; intros k; [discriminate|].
  rewrite find_last_of_cons.
  destruct (StdString.find_last_of s chars) as [k'|] eqn:Hs.
  - intros [= <-]. destruct (IH k' eq_refl) as [Hat Hlater]. split; [exact Hat|].
    intros [|j] c' Hj; [lia|]. simpl. apply Hlater. lia.
  - destruct (StdString.mem c chars) eqn:Hc; [|discriminate].
    intros [= <-]. split; [exists c; auto|].
    intros [|j] c' Hj; [lia|]. simpl.
    apply (proj1 (find_last_of_None s chars) Hs).
Qed.

Lemma get_Some_lt s k c : get k s = Some c -> k < String.length s.
Proof.
  revert k. induction s as [|c0 s IH]; intros [|k]; simpl; try discriminate; try lia.
  intros Hk. apply IH in Hk. lia.
Qed.

Lemma find_last_of_lt s chars k :
  StdString.find_last_of s chars = Some k -> k < String.length s.
Proof.
  intros Hk. destruct (find_last_of_Some _ _ _ Hk) as [(c & Hc & _) _].
  by eapply get_Some_lt.
Qed.

Lemma length_substring n m s :
  n + m <= String.length s -> String.length (substring n m s) = m.
Proof.
  revert n m. induction s as [|c s IH]; intros [|n] [|m]; simpl; try lia;
    intros Hle; try reflexivity.
  - f_equal. apply (IH 0). simpl. lia.
  - apply (IH n 0). lia.
  - apply (IH n (S m)). lia.
Qed.

Lemma length_substring_0 n s :
  String.length (substring 0 n s) = Nat.min n (String.length s).
Proof.
  revert n. induction s as [|c s IH]; intros [|n]; simpl; try reflexivity.
  by rewrite IH.
Qed.

Lemma substring_of_prefix s n m k :
  n + m <= k -> substring n m (substring 0 k s) = substring n m s.
Proof.
  revert n m k. induction s as [|c s IH]; intros n m k Hk.
  - destruct k, n, m; reflexivity.
  - destruct k as [|k].
    + assert (n = 0) as -> by lia. assert (m = 0) as -> by lia. reflexivity.
    + destruct n as [|n]; simpl.
      * destruct m as [|m]; [reflexivity|]. simpl. f_equal. apply IH. lia.
      * apply IH. lia.
Qed.

Lemma name_stop_le fname : name_stop fname <= String.length fname.
Proof.
  unfold name_stop. destruct (StdString.find_last_of fname ".") eqn:Hd; [|lia].
  apply find_last_of_lt in Hd. lia.
Qed.

(** The dot and the slash are not found at the same place. *)
Lemma dot_not_slash fname d :
  StdString.find_last_of fname "." = Some d ->
  StdString.find_last_of fname "/" <> Some d.
Proof.
  intros Hd Hs.
  destruct (find_last_of_Some _ _ _ Hd) as [(c & Hc & Hdot) _].
  destruct (find_last_of_Some _ _ _ Hs) as [(c' & Hc' & Hslash) _].
  rewrite Hc in Hc'. injection Hc' as <-.
  unfold StdString.mem in Hdot, Hslash. simpl in Hdot, Hslash.
  rewrite orb_false_r in Hdot, Hslash.
  apply Ascii.eqb_eq in Hdot, Hslash. congruence.
Qed.

(** A [substr] from position zero never throws. *)
Lemma substr_0 s count :
  StdString.substr s 0 count =
    Ret (substring 0 (match count with
                      | Some n => Nat.min n (String.length s)
                      | None => String.length s
                      end) s).
Proof.
  unfold StdString.substr. destruct (Nat.ltb_spec (String.length s) 0); [lia|].
  rewrite Nat.sub_0_r. reflexivity.
Qed.

(** The two [substr] of [getRawFileName] as one [substring] of the name. *)
Lemma getRawFileName_eq fname :
  getRawFileName fname =
    if name_stop fname <? name_start fname then Throw "out_of_range"
    else Ret (substring (name_start fname)
                        (name_stop fname - name_start fname) fname).
Proof.
  pose proof (name_stop_le fname) as Hstop.
  unfold getRawFileName. rewrite substr_0.
  assert (Hlen : match StdString.find_last_of fname "." with
                 | Some n => Nat.min n (String.length fname)
                 | None => String.length fname
                 end = name_stop fname).
  { unfold name_stop in *. destruct (StdString.find_last_of fname "."); lia. }
  rewrite Hlen. cbn [mbind result_bind]. unfold name_start.
  destruct (StdString.find_last_of fname "/") as [sl|] eqn:Hsl.
  - unfold StdString.substr. rewrite length_substring_0.
    rewrite Nat.min_l by lia.
    destruct (Nat.ltb_spec (name_stop fname) (S sl)) as [Hlt|Hge]; [reflexivity|].
    f_equal. apply substring_of_prefix. lia.
  - destruct (Nat.ltb_spec (name_stop fname) 0); [lia|].
    by rewrite Nat.sub_0_r.
Qed.

(** X1: [getRawFileName] gives the part of the name after its last slash
    and before its last dot (the whole tail when there is no dot), and
    throws when the last dot stands before the last slash. *)
Theorem getRawFileName_closed fname :
  getRawFileName fname =
    if name_stop fname <? name_start fname then Throw "out_of_range"
    else Ret (substring (name_start fname)
                        (name_stop fname - name_start fname) fname).
Proof.
  pose proof (name_stop_le fname) as Hstop.
  unfold getRawFileName. rewrite substr_0.
  assert (Hlen : match StdString.find_last_of fname "." with
                 | Some n => Nat.min n (String.length fname)
                 | None => String.length fname
                 end = name_stop fname).
  { unfold name_stop in *. destruct (StdString.find_last_of fname "."); lia. }
  rewrite Hlen. cbn [mbind result_bind]. unfold name_start.
  destruct (StdString.find_last_of fname "/") as [sl|] eqn:Hsl.
  - unfold StdString.substr. rewrite length_substring_0.
    rewrite Nat.min_l by lia.
    destruct (Nat.ltb_spec (name_stop fname) (S sl)) as [Hlt|Hge]; [reflexivity|].
    f_equal. apply substring_of_prefix. lia.
  - destruct (Nat.ltb_spec (name_stop fname) 0); [lia|].
    by rewrite Nat.sub_0_r.
Qed.

(** X2: the only failure of [getRawFileName] is the exception, and it is
    raised exactly when the name has a dot and a slash with the last dot
    before the last slash (a dotted directory, or a leading [./], in front
    of a name without extension). *)
Theorem getRawFileName_throws fname :
  (getRawFileName fname = Throw "out_of_range" <->
   exists d sl,
     StdString.find_last_of fname "." = Some d /\
     StdString.find_last_of fname "/" = Some sl /\
     d < sl) /\
  (forall status, getRawFileName fname <> Exit status) /\
  getRawFileName fname <> Undefined.
Proof.
  rewrite getRawFileName_eq. pose proof (dot_not_slash fname) as Hne.
  unfold name_stop, name_start in *.
  destruct (StdString.find_last_of fname ".") as [d|] eqn:Hd;
    destruct (StdString.find_last_of fname "/") as [sl|] eqn:Hsl.
  - specialize (Hne d eq_refl).
    destruct (Nat.ltb_spec d (S sl)) as [Hlt|Hge].
    + repeat split; try discriminate.
      intros _. exists d, sl. repeat split. assert (d <> sl) by congruence. lia.
    + repeat split; try discriminate.
      intros (d' & sl' & [= <-] & [= <-] & Hlt). lia.
  - repeat split; try discriminate. intros (d' & sl' & _ & [=] & _).
  - apply find_last_of_lt in Hsl.
    destruct (Nat.ltb_spec (String.length fname) (S sl)) as [Hlt|Hge]; [lia|].
    repeat split; try discriminate. intros (d' & sl' & [=] & _).
  - repeat split; try discriminate. intros (d' & sl' & [=] & _).
Qed.

(** X3: the raw name [getRawFileName] returns holds no slash, and its
    length is the distance from the last slash to the last dot. *)
Theorem getRawFileName_no_slash fname rawname :
  getRawFileName fname = Ret rawname ->
  StdString.find_last_of rawname "/" = None /\
  String.length rawname + name_start fname = name_stop fname.
Proof.
  rewrite getRawFileName_eq. pose proof (name_stop_le fname) as Hstop.
  destruct (Nat.ltb_spec (name_stop fname) (name_start fname)) as [Hlt|Hge];
    [discriminate|].
  intros [= <-].
  set (start := name_start fname) in *. set (stop := name_stop fname) in *.
  assert (Hget : forall j, j < stop - start ->
            get j (substring start (stop - start) fname) = get (j + start) fname).
  { intros j Hj. by apply substring_correct1. }
  assert (Hnone : forall j, stop - start <= j ->
            get j (substring start (stop - start) fname) = None).
  { intros j Hj. by apply substring_correct2. }
  split.
  - apply find_last_of_None. intros j c Hj.
    destruct (Nat.lt_ge_cases j (stop - start)) as [Hin|Hout];
      [|rewrite Hnone in Hj by exact Hout; discriminate].
    rewrite Hget in Hj by exact Hin.
    subst start. unfold name_start in *.
    destruct (StdString.find_last_of fname "/") as [sl|] eqn:Hsl.
    + destruct (find_last_of_Some _ _ _ Hsl) as [_ Hlater].
      apply (Hlater (j + S sl)); [lia | exact Hj].
    + by eapply find_last_of_None.
  - rewrite length_substring; lia.
Qed.

End FileNames.

(** * The order of [double] *)
Section DoubleOrder.

Lemma compare_key (x y : CDouble.double) :
  CDouble.is_nan x = false ->
  CDouble.is_nan y = false ->
  SFcompare x y = Some (lex3 (float_key x) (float_key y)).
Proof.
  destruct x as [sx|[]| |[] mx ex]; destruct y as [sy|[]| |[] my ey];
    try discriminate; intros _ _; try reflexivity.
  unfold lex3, float_key. cbn [fst snd SFcompare].
  rewrite Z.compare_opp, (Z.compare_antisym ex ey).
  destruct (ex ?= ey); reflexivity.
Qed.

Lemma lex3_refl a : lex3 a a = Eq.
Proof. unfold lex3. by rewrite !Z.compare_refl. Qed.

Lemma lex3_antisym a b : lex3 b a = CompOpp (lex3 a b).
Proof.
  unfold lex3.
  rewrite (Z.compare_antisym a.1.1), (Z.compare_antisym a.1.2), (Z.compare_antisym a.2).
  destruct (a.1.1 ?= b.1.1); simpl; try reflexivity.
  destruct (a.1.2 ?= b.1.2); reflexivity.
Qed.

Lemma lex3_trans a b c : lex3 a b <> Gt -> lex3 b c <> Gt -> lex3 a c <> Gt.
Proof.
  unfold lex3.
  destruct (Z.compare_spec a.1.1 b.1.1), (Z.compare_spec b.1.1 c.1.1),
    (Z.compare_spec a.1.1 c.1.1); try lia; try congruence;
  destruct (Z.compare_spec a.1.2 b.1.2), (Z.compare_spec b.1.2 c.1.2),
    (Z.compare_spec a.1.2 c.1.2); try lia; try congruence;
  destruct (Z.compare_spec a.2 b.2), (Z.compare_spec b.2 c.2),
    (Z.compare_spec a.2 c.2); try lia; congruence.
Qed.

Lemma leb_key x y :
  CDouble.is_nan x = false ->
  CDouble.is_nan y = false ->
  CDouble.leb x y = true <-> lex3 (float_key x) (float_key y) <> Gt.
Proof.
  intros Hx Hy. unfold CDouble.leb, SFleb. rewrite (compare_key x y Hx Hy).
  destruct (lex3 _ _); split; congruence.
Qed.

Lemma ltb_key x y :
  CDouble.is_nan x = false ->
  CDouble.is_nan y = false ->
  CDouble.ltb x y = true <-> lex3 (float_key x) (float_key y) = Lt.
Proof.
  intros Hx Hy. unfold CDouble.ltb, SFltb. rewrite (compare_key x y Hx Hy).
  destruct (lex3 _ _); split; congruence.
Qed.

Lemma ltb_not_nan x y :
  CDouble.ltb x y = true -> CDouble.is_nan x = false /\ CDouble.is_nan y = false.
Proof.
  unfold CDouble.ltb, SFltb.
  destruct x as [?|?| |? ? ?]; destruct y as [?|?| |? ? ?];
    simpl; try discriminate; auto.
Qed.

Lemma double_leb_refl x : CDouble.is_nan x = false -> CDouble.leb x x = true.
Proof. intros Hx. apply leb_key; auto. rewrite lex3_refl. discriminate. Qed.

Lemma double_leb_trans x y z :
  CDouble.is_nan x = false -> CDouble.is_nan y = false -> CDouble.is_nan z = false ->
  CDouble.leb x y = true -> CDouble.leb y z = true -> CDouble.leb x z = true.
Proof.
  intros Hx Hy Hz Hxy Hyz. apply leb_key in Hxy, Hyz; auto.
  apply leb_key; auto. by eapply lex3_trans.
Qed.

(** [std::max] on [double]: never a NaN when its first argument is none,
    above its first argument, above its second when that is no NaN, and
    one of the two. *)
Lemma double_max_spec a b :
  CDouble.is_nan a = false ->
  CDouble.is_nan (CDouble.max a b) = false /\
  CDouble.leb a (CDouble.max a b) = true /\
  (CDouble.is_nan b = false -> CDouble.leb b (CDouble.max a b) = true) /\
  (CDouble.max a b = a \/ CDouble.max a b = b).
Proof.
  intros Ha. unfold CDouble.max. destruct (CDouble.ltb a b) eqn:Hlt.
  - destruct (ltb_not_nan _ _ Hlt) as [_ Hb].
    repeat split; auto using double_leb_refl.
    apply leb_key; auto. apply ltb_key in Hlt; auto. congruence.
  - repeat split; auto using double_leb_refl.
    intros Hb. apply leb_key; auto. rewrite lex3_antisym.
    destruct (lex3 (float_key a) (float_key b)) eqn:Hc; simpl; try discriminate.
    exfalso. apply (ltb_key a b Ha Hb) in Hc. congruence.
Qed.

End DoubleOrder.

(** * More on the statistics *)
Section StatisticsMore.
Import Statistics.

Lemma fold_accumulate_max l :
  forall acc,
    CDouble.is_nan acc.2 = false ->
    let m := (fold_left accumulate l acc).2 in
    CDouble.is_nan m = false /\
    CDouble.leb acc.2 m = true /\
    (forall fp, fp ∈ l -> CDouble.is_nan (dist fp) = false ->
                CDouble.leb (dist fp) m = true) /\
    (m = acc.2 \/ exists fp, fp ∈ l /\ m = dist fp).
Proof.
  induction l as [|fp0 l IH]; intros acc Hacc; simpl.
  - repeat split; auto using double_leb_refl.
    intros fp Hin. by apply elem_of_nil in Hin.
  - destruct (double_max_spec acc.2 (dist fp0) Hacc) as (Hn & Hle & Hfp0 & Hor).
    destruct (IH (accumulate acc fp0) Hn) as (Hn' & Hle' & Hall & Hor').
    simpl in *. repeat split; auto.
    + eapply double_leb_trans; [| | |exact Hle|exact Hle']; auto.
    + intros fp Hin Hfp. apply elem_of_cons in Hin as [->|Hin]; [|auto].
      eapply double_leb_trans; [| | |apply Hfp0|exact Hle']; auto.
    + destruct Hor' as [->|(fp & Hin & ->)].
      * destruct Hor as [->| ->]; [by left|].
        right. exists fp0. split; [apply list_elem_of_here | reflexivity].
      * right. exists fp. split; [by apply list_elem_of_further | reflexivity].
Qed.

Lemma report_maxDist_fold s :
  maxDist (report s)
    = (fold_left accumulate (failures s) (CDouble.zero, CDouble.zero)).2.
Proof.
  unfold report.
  destruct (fold_left accumulate (failures s) (CDouble.zero, CDouble.zero)).
  reflexivity.
Qed.

(** X4: the maximum [report] prints is never a NaN and never below zero;
    it is at least the distance of every failure whose distance is not a
    NaN, and it is zero or the distance of one of the failures. *)
Theorem report_maxDist_bound s :
  CDouble.is_nan (maxDist (report s)) = false /\
  CDouble.leb CDouble.zero (maxDist (report s)) = true /\
  (forall fp, fp ∈ failures s -> CDouble.is_nan (dist fp) = false ->
              CDouble.leb (dist fp) (maxDist (report s)) = true) /\
  (maxDist (report s) = CDouble.zero \/
   exists fp, fp ∈ failures s /\ maxDist (report s) = dist fp).
Proof.
  rewrite report_maxDist_fold.
  exact (fold_accumulate_max (failures s) (CDouble.zero, CDouble.zero) eq_refl).
Qed.

(** [writeOutForVisu] once the name is known to be usable. *)
Lemma writeOutForVisu_cases s fname rawname :
  getRawFileName fname = Ret rawname ->
  writeOutForVisu s fname =
    if decide (Z.to_nat (nbFailure s) <= length (failures s))%nat
    then Ret {| datFile := rawname +:+ ".failedpoints.dat";
                columns := ["x"; "y"; "z"; "pointID"; "cellID"; "materialID";
                            "dist"; "rank"];
                rows := take (Z.to_nat (nbFailure s)) (failures s);
                pointsFile := writePointsFile rawname |}
    else Undefined.
Proof.
  intros Hraw. unfold writeOutForVisu. rewrite Hraw. cbn [mbind result_bind].
  rewrite store_loop_take, drop_0. cbn [app].
  destruct (decide (Z.to_nat (nbFailure s) <= length (failures s))%nat) as [Hle|Hgt].
  - rewrite decide_True by (right; lia). reflexivity.
  - destruct (decide _) as [[Hz|Hle]|_]; [lia | lia | reflexivity].
Qed.

(** X5: with a usable file name, [writeOutForVisu] is defined exactly
    when the failure list holds at least [nbFailure] entries; it then
    writes the first [nbFailure] of them as rows of [rawname.failedpoints.dat]
    and the pointer file [rawname.points].  When the name makes
    [getRawFileName] throw, nothing is written. *)
Theorem writeOutForVisu_defined s fname rawname :
  getRawFileName fname = Ret rawname ->
  writeOutForVisu s fname =
    if decide (Z.to_nat (nbFailure s) <= length (failures s))%nat
    then Ret {| datFile := rawname +:+ ".failedpoints.dat";
                columns := ["x"; "y"; "z"; "pointID"; "cellID"; "materialID";
                            "dist"; "rank"];
                rows := take (Z.to_nat (nbFailure s)) (failures s);
                pointsFile :=
                  {| path := rawname +:+ ".points";
                     text := "name " +:+ (rawname +:+ (".failedpoints.general"
                                                       +:+ String "010" "")) |} |}
    else Undefined.
Proof.
  intros Hraw. unfold writeOutForVisu. rewrite Hraw. cbn [mbind result_bind].
  rewrite store_loop_take, drop_0. cbn [app].
  destruct (decide (Z.to_nat (nbFailure s) <= length (failures s))%nat) as [Hle|Hgt].
  - rewrite decide_True by (right; lia). reflexivity.
  - destruct (decide _) as [[Hz|Hle]|_]; [lia | lia | reflexivity].
Qed.

(** X6: when every failure was both counted and recorded, the export
    writes the whole failure list, one row per entry and in the order of
    recording. *)
Theorem writeOutForVisu_in_step s fname rawname :
  getRawFileName fname = Ret rawname ->
  in_step s ->
  exists out,
    writeOutForVisu s fname = Ret out /\
    rows out = failures s /\
    datFile out = rawname +:+ ".failedpoints.dat".
Proof.
  intros Hraw Hstep. rewrite (writeOutForVisu_cases s fname rawname Hraw).
  unfold in_step in Hstep.
  rewrite decide_True by lia. eexists. split; [reflexivity|].
  split; [|reflexivity]. cbn [rows]. apply take_ge. lia.
Qed.

(** X7: counting a failure and then recording it keeps the counter and
    the list in step, and so does each of the other three increments. *)
Theorem in_step_kept s position rank pointID cellID materialID d s' :
  in_step s ->
  nbFailure s < CInt.INT_MAX ->
  recordFailure position rank pointID cellID materialID d (incrementFailure s)
    = Ret s' ->
  in_step s' /\
  in_step (incrementSuccess s) /\
  in_step (incrementIgnore s) /\
  in_step (incrementOutside s).
Proof.
  unfold in_step, recordFailure. intros Hstep Hmax.
  destruct (position !! 0%nat), (position !! 1%nat), (position !! 2%nat);
    try discriminate.
  intros [= <-]. cbn [nbFailure failures incrementFailure incrementSuccess
                      incrementIgnore incrementOutside].
  rewrite length_app. cbn [length]. repeat split; try exact Hstep.
  rewrite incr_below; [lia|].
  unfold CInt.INT_MIN, CInt.INT_MAX in *. lia.
Qed.

(** X8: the covered count [report] prints grows by one when a rank is
    recorded for the first time and stays when the rank was recorded
    before; recording touches no counter and no failure. *)
Theorem recordCoveredRank_counts_once rank s :
  covered (report (recordCoveredRank rank s)) =
    (covered (report s) + if decide (rank ∈ coveredRanks s) then 0 else 1)%Z /\
  counters (recordCoveredRank rank s) = counters s /\
  failures (recordCoveredRank rank s) = failures s.
Proof.
  split; [|split; reflexivity].
  assert (Hcov : forall t, covered (report t) = Z.of_nat (size (coveredRanks t))).
  { intros t. unfold report. destruct (fold_left _ _ _). reflexivity. }
  rewrite !Hcov. cbn [coveredRanks recordCoveredRank].
  destruct (decide (rank ∈ coveredRanks s)) as [Hin|Hnew].
  - rewrite (subseteq_union_1_L {[rank]} (coveredRanks s))
      by (by apply singleton_subseteq_l).
    lia.
  - rewrite size_union by (by apply disjoint_singleton_l).
    rewrite size_singleton. lia.
Qed.

End StatisticsMore.

(** * More on the command-line options *)
Section OptionsMore.
Import OptionsCompare.

Variable int_of_string : string -> Z.
Variable extract_double : string -> option CDouble.double.
Variable readable : string -> bool.

Lemma check_files_spec fnames :
  (Forall (fun f => readable f = true) fnames /\
   check_files readable fnames = Ret tt) \/
  (~ Forall (fun f => readable f = true) fnames /\
   check_files readable fnames = Exit EXIT_FAILURE).
Proof.
  induction fnames as [|f rest IH]; simpl; [left; split; [constructor | reflexivity]|].
  destruct (readable f) eqn:Hf.
  - destruct IH as [[Hall ->]|[Hnot ->]]; [left | right]; split; auto.
    intros Hall. apply Forall_cons in Hall as [_ Hall]. auto.
  - right. split; [|reflexivity].
    intros Hall. apply Forall_cons in Hall as [Hf' _]. congruence.
Qed.

Lemma read_npts_positive text o :
  npoints_positive o -> npoints_positive (read_npts int_of_string text o).
Proof.
  unfold read_npts, npoints_positive.
  destruct (Z.leb_spec (int_of_string text) 0); [auto|].
  intros _ n [= <-]. lia.
Qed.

(** Splitting the tests of the loop on [opt] into equalities. *)
Ltac split_tests :=
  repeat match goal with
    | H : (_ || _)%bool = false |- _ => apply orb_false_elim in H as [? ?]
    | H : (_ =? _)%string = false |- _ => apply String.eqb_neq in H
    end.

(** What one run of the loop over [argv] does, read where it ends: it
    returns or exits with the failure status; a return through [--help]
    has set [help], any other leaves it; a set number of points stays
    positive; the file names added are arguments that are no option
    words, in their order. *)
Lemma for_loop_spec n :
  forall args argc i o,
    (length args <= n)%nat ->
    argc = i + Z.of_nat (length args) ->
    match for_loop int_of_string extract_double argc i args o with
    | Ret (returned, o') =>
        (if returned then help o' = true else help o' = help o) /\
        (npoints_positive o -> npoints_positive o') /\
        exists added,
          filenames o' = filenames o ++ added /\
          added `sublist_of` args /\
          Forall (fun f => f ∉ option_words) added
    | Exit status => status = EXIT_FAILURE
    | _ => False
    end.
Proof.
  induction n as [|n IH]; intros args argc i o Hlen Hargc;
    (destruct args as [|opt rest]; cbn [length] in Hlen, Hargc; [|try lia]).
  1,2: cbn [for_loop]; destruct (Z.leb_spec argc i); [|lia];
       (split; [reflexivity|]); (split; [auto|]);
       exists []; rewrite app_nil_r; repeat split; constructor.
  cbn [for_loop]. destruct (Z.leb_spec argc i); [lia|].
  destruct ((opt =? "--help")%string || (opt =? "-h")%string) eqn:Hhelp.
  { split; [reflexivity|]. split; [auto|].
    exists []. rewrite app_nil_r. repeat split; [apply sublist_nil_l | constructor]. }
  assert (Hrec : forall o1,
    help o1 = help o -> (npoints_positive o -> npoints_positive o1) ->
    filenames o1 = filenames o ->
    match for_loop int_of_string extract_double argc (i + 1) rest o1 with
    | Ret (returned, o') =>
        (if returned then help o' = true else help o' = help o) /\
        (npoints_positive o -> npoints_positive o') /\
        exists added,
          filenames o' = filenames o ++ added /\
          added `sublist_of` opt :: rest /\
          Forall (fun f => f ∉ option_words) added
    | Exit status => status = EXIT_FAILURE
    | _ => False
    end).
  { intros o1 Hh Hn Hf.
    specialize (IH rest argc (i + 1) o1 ltac:(lia) ltac:(lia)).
    destruct (for_loop _ _ _ _ _ _) as [[returned o']| | |]; auto.
    destruct IH as (Hh' & Hn' & added & Hf' & Hsub & Hall).
    split; [destruct returned; congruence|]. split; [auto|].
    exists added. rewrite Hf', Hf. repeat split; auto. by apply sublist_cons. }
  assert (Hval : forall upd : string -> OptionsCompare -> OptionsCompare,
    (forall text, help (upd text o) = help o) ->
    (forall text, npoints_positive o -> npoints_positive (upd text o)) ->
    (forall text, filenames (upd text o) = filenames o) ->
    match
      match check_argv argc (i + 1) with
      | Ret _ =>
          match rest with
          | [] => Undefined
          | text :: rest' =>
              for_loop int_of_string extract_double argc (i + 1 + 1) rest'
                       (upd text o)
          end
      | Exit c => Exit c
      | Throw w => Throw w
      | Undefined => Undefined
      end
    with
    | Ret (returned, o') =>
        (if returned then help o' = true else help o' = help o) /\
        (npoints_positive o -> npoints_positive o') /\
        exists added,
          filenames o' = filenames o ++ added /\
          added `sublist_of` opt :: rest /\
          Forall (fun f => f ∉ option_words) added
    | Exit status => status = EXIT_FAILURE
    | _ => False
    end).
  { intros upd Hh Hn Hf. unfold check_argv.
    destruct (Z.leb_spec argc (i + 1)); [reflexivity|].
    destruct rest as [|text rest']; cbn [length] in Hlen, Hargc; [lia|].
    specialize (IH rest' argc (i + 1 + 1) (upd text o) ltac:(lia) ltac:(lia)).
    destruct (for_loop _ _ _ _ _ _) as [[returned o']| | |]; auto.
    destruct IH as (Hh' & Hn' & added & Hf' & Hsub & Hall).
    split; [destruct returned; [auto | by rewrite Hh', Hh]|].
    split; [auto|].
    exists added. rewrite Hf', Hf. repeat split; auto.
    by apply sublist_cons, sublist_cons. }
  destruct ((opt =? "--verbose")%string || (opt =? "-V")%string) eqn:Hverbose;
    [by apply Hrec|].
  destruct ((opt =? "--guess-material-assocs")%string || (opt =? "-g")%string)
    eqn:Hguess; [by apply Hrec|].
  destruct ((opt =? "--npts")%string || (opt =? "-n")%string) eqn:Hnpts.
  { apply (Hval (read_npts int_of_string)); intros text.
    - unfold read_npts. by destruct (_ <=? 0).
    - apply read_npts_positive.
    - unfold read_npts. by destruct (_ <=? 0). }
  destruct ((opt =? "--delta")%string || (opt =? "-d")%string) eqn:Hdelta.
  { apply (Hval (read_delta extract_double)); intros text.
    - unfold read_delta. by destruct (extract_double text), (CDouble.leb _ _).
    - unfold read_delta, npoints_positive.
      by destruct (extract_double text), (CDouble.leb _ _).
    - unfold read_delta. by destruct (extract_double text), (CDouble.leb _ _). }
  destruct (opt =? "--binary")%string eqn:Hbinary; [by apply Hrec|].
  destruct (opt =? "--ascii")%string eqn:Hascii; [by apply Hrec|].
  specialize (IH rest argc (i + 1) (push_filename opt o) ltac:(lia) ltac:(lia)).
  destruct (for_loop _ _ _ _ _ _) as [[returned o']| | |]; auto.
  destruct IH as (Hh' & Hn' & added & Hf' & Hsub & Hall).
  split; [exact Hh'|]. split; [auto|].
  exists (opt :: added). cbn [filenames push_filename] in Hf'.
  rewrite Hf', <- app_assoc. repeat split; [by apply sublist_skip|].
  constructor; [|exact Hall].
  split_tests. unfold option_words. rewrite !elem_of_cons, elem_of_nil.
  intuition congruence.
Qed.

(** X9: [get_opts] never reads [argv] at or past [argc] and never
    throws: it returns, or it exits with the failure status. *)
Theorem get_opts_returns_or_exits argv o :
  (exists o', get_opts int_of_string extract_double readable argv o = Ret o') \/
  get_opts int_of_string extract_double readable argv o = Exit EXIT_FAILURE.
Proof.
  unfold get_opts. destruct (Z.leb_spec (Z.of_nat (length argv)) 3) as [|Hargc];
    [eauto|].
  pose proof (for_loop_spec (length (tail argv)) (tail argv)
                (Z.of_nat (length argv)) 1 o (le_n _)) as Hloop.
  destruct argv as [|prog args]; cbn [tail length] in *; [lia|].
  specialize (Hloop ltac:(lia)).
  destruct (for_loop _ _ _ _ _ _) as [[returned o']|status| |];
    cbn [mbind result_bind]; try contradiction.
  - destruct returned; [eauto|].
    destruct (check_files_spec (filenames o')) as [[_ ->]|[_ ->]]; cbn; eauto.
  - subst status. auto.
Qed.

(** X10: when [get_opts] returns, either [help] is set or there were
    more than three arguments and every file name kept is readable. *)
Theorem get_opts_files_readable argv o o' :
  get_opts int_of_string extract_double readable argv o = Ret o' ->
  help o' = true \/
  (3 < Z.of_nat (length argv) /\
   Forall (fun f => readable f = true) (filenames o')).
Proof.
  unfold get_opts. destruct (Z.leb_spec (Z.of_nat (length argv)) 3) as [|Hargc];
    [intros [= <-]; by left|].
  pose proof (for_loop_spec (length (tail argv)) (tail argv)
                (Z.of_nat (length argv)) 1 o (le_n _)) as Hloop.
  destruct argv as [|prog args]; cbn [tail length] in *; [lia|].
  specialize (Hloop ltac:(lia)).
  destruct (for_loop _ _ _ _ _ _) as [[returned o1]| | |];
    cbn [mbind result_bind]; try discriminate.
  destruct Hloop as (Hh & _). destruct returned.
  - intros [= <-]. by left.
  - destruct (check_files_spec (filenames o1)) as [[Hall ->]|[_ ->]];
      cbn; [|discriminate].
    intros [= <-]. right. split; [lia | exact Hall].
Qed.

(** X11: after [get_opts] on fresh options, the number of points is
    either unset or positive, and the file names are arguments of the
    command line other than the option words, in the order given. *)
Theorem get_opts_npoints_filenames argv o :
  get_opts int_of_string extract_double readable argv OptionsCompare.new = Ret o ->
  npoints_positive o /\
  filenames o `sublist_of` tail argv /\
  Forall (fun f => f ∉ option_words) (filenames o).
Proof.
  unfold get_opts. destruct (Z.leb_spec (Z.of_nat (length argv)) 3) as [|Hargc].
  { intros [= <-]. cbn. repeat split; [intros n [=] | apply sublist_nil_l | constructor]. }
  pose proof (for_loop_spec (length (tail argv)) (tail argv)
                (Z.of_nat (length argv)) 1 OptionsCompare.new (le_n _)) as Hloop.
  destruct argv as [|prog args]; cbn [tail length] in *; [lia|].
  specialize (Hloop ltac:(lia)).
  destruct (for_loop _ _ _ _ _ _) as [[returned o1]| | |];
    cbn [mbind result_bind]; try discriminate.
  destruct Hloop as (_ & Hn & added & Hf & Hsub & Hall).
  assert (Hgoal : npoints_positive o1 /\ filenames o1 `sublist_of` args /\
                  Forall (fun f => f ∉ option_words) (filenames o1)).
  { rewrite Hf. cbn. repeat split; auto. apply Hn. intros n [=]. }
  destruct returned; [intros [= <-]; exact Hgoal|].
  destruct (check_files readable (filenames o1)); cbn; try discriminate.
  intros [= <-]. exact Hgoal.
Qed.

(** A word that is no option is taken for a file name. *)
Lemma for_loop_file_name argc i f rest o :
  f ∉ option_words ->
  i < argc ->
  for_loop int_of_string extract_double argc i (f :: rest) o =
    for_loop int_of_string extract_double argc (i + 1) rest (push_filename f o).
Proof.
  intros Hf Hi. cbn [for_loop]. destruct (Z.leb_spec argc i); [lia|].
  assert (Hw : forall w, w ∈ option_words -> (f =? w)%string = false).
  { intros w Hw. apply String.eqb_neq. intros <-. contradiction. }
  unfold option_words in Hw.
  rewrite !Hw by (rewrite !elem_of_cons; auto 20). reflexivity.
Qed.

Lemma for_loop_help pre :
  forall argc i o h post,
    Forall (fun f => f ∉ option_words) pre ->
    h = "--help" \/ h = "-h" ->
    i + Z.of_nat (length pre) < argc ->
    exists o',
      for_loop int_of_string extract_double argc i (pre ++ h :: post) o
        = Ret (true, o') /\
      help o' = true /\
      filenames o' = filenames o ++ pre.
Proof.
  induction pre as [|f pre IH]; intros argc i o h post Hpre Hh Hi;
    cbn [app length] in *.
  - exists (set_help true o). cbn [for_loop].
    destruct (Z.leb_spec argc i); [lia|].
    destruct Hh as [-> | ->]; cbn; by rewrite app_nil_r.
  - apply Forall_cons in Hpre as [Hf Hpre].
    rewrite for_loop_file_name by (auto; lia).
    destruct (IH argc (i + 1) (push_filename f o) h post Hpre Hh ltac:(lia))
      as (o' & -> & Hhelp & Hfiles).
    exists o'. repeat split; auto. rewrite Hfiles. cbn. by rewrite <- app_assoc.
Qed.

(** X12: a request for help ends the parsing where it stands.  When
    only file names come before [--help] or [-h] (and there are more than
    three arguments in all), [get_opts] returns with [help] set and those
    names kept, whatever follows and whether or not the files can be
    read. *)
Theorem get_opts_help_first prog pre h post :
  Forall (fun f => f ∉ option_words) pre ->
  h = "--help" \/ h = "-h" ->
  (2 <= length pre + length post)%nat ->
  exists o,
    get_opts int_of_string extract_double readable (prog :: pre ++ h :: post)
             OptionsCompare.new = Ret o /\
    help o = true /\
    filenames o = pre.
Proof.
  intros Hpre Hh Hlen. unfold get_opts. cbn [tail length].
  rewrite length_app. cbn [length].
  destruct (Z.leb_spec (Z.of_nat (S (length pre + S (length post)))) 3); [lia|].
  destruct (for_loop_help pre (Z.of_nat (S (length pre + S (length post)))) 1
              OptionsCompare.new h post Hpre Hh ltac:(lia))
    as (o' & -> & Hhelp & Hfiles).
  exists o'. cbn. auto.
Qed.

End OptionsMore.

(** * The tolerance after [get_opts] *)
Section DeltaGuard.
Import OptionsCompare.

Variable int_of_string : string -> Z.
Variable extract_double : string -> option CDouble.double.
Variable readable : string -> bool.








End DeltaGuard.



(** * More on the runs *)
Section RunsMore.
Import Statistics Oracle.
Context {MaterialKey : Type} `{Countable MaterialKey}.
Implicit Types (g : T4Geometry MaterialKey) (d : PtracData MaterialKey).
Implicit Types (s : Statistics) (σ : LoopState MaterialKey).
Implicit Types (records : list (PtracData MaterialKey)).

Ltac int_lia := unfold CInt.in_range, CInt.INT_MIN, CInt.INT_MAX in *; lia.

(** One iteration, read from its result: the record consumed, and what
    became of the geometry and of the statistics. *)
Lemma step_inv nb σ σ' :
  step nb σ σ' ->
  exists d,
    unread (mcnpGeom σ) = d :: unread (mcnpGeom σ') /\
    nbPointsRead (mcnpGeom σ') = nbPointsRead (mcnpGeom σ) + 1 /\
    nbPointsRead (mcnpGeom σ) < nb /\
    0 <= rank_of (t4Geom σ) d /\
    volumes (t4Geom σ') = volumes (t4Geom σ) /\
    ((equivalenceMap (t4Geom σ) !! materialDensity d = None /\
      t4Geom σ' = addEquivalence (t4Geom σ) (materialDensity d)
                                 (compo_of (t4Geom σ) d) /\
      stats σ' = incrementSuccess (stats σ)) \/
     (is_Some (equivalenceMap (t4Geom σ) !! materialDensity d) /\
      t4Geom σ' = t4Geom σ /\
      (stats σ' = incrementSuccess (stats σ) \/
       stats σ' = incrementIgnore (stats σ) \/
       stats σ' = incrementFailure (stats σ)))).
Proof.
  unfold step, iteration.
  destruct (readNextPtracData nb (mcnpGeom σ)) as [[d m']|] eqn:Hread;
    [|discriminate].
  apply readNextPtracData_Some in Hread as (Hlt & Hun & Hcount).
  destruct (Z.lt_ge_cases (rank_of (t4Geom σ) d) 0) as [Hr|Hr].
  { rewrite (loop_body_outside _ _ _ Hr). discriminate. }
  intros Hstep. exists d.
  destruct (equivalenceMap (t4Geom σ) !! materialDensity d) as [expected|] eqn:Hk.
  - destruct (decide (expected = compo_of (t4Geom σ) d)) as [->|Hne].
    + rewrite (loop_body_same _ _ _ Hr Hk) in Hstep. injection Hstep as <-. cbn.
      repeat split; auto; try (right; repeat split; eauto 10).
    + rewrite (loop_body_mismatch _ _ _ expected Hr Hk Hne) in Hstep.
      destruct (CDouble.leb _ _); injection Hstep as <-; cbn;
        repeat split; auto; try (right; repeat split; eauto 10).
  - rewrite (loop_body_first _ _ _ Hr Hk) in Hstep. injection Hstep as <-. cbn.
    repeat split; auto.
Qed.

Lemma step_counters_only nb σ σ' :
  step nb σ σ' -> counters_only (stats σ) -> counters_only (stats σ').
Proof.
  intros Hstep. destruct (step_inv _ _ _ Hstep)
    as (d & _ & _ & _ & _ & _ & [(_ & _ & ->)|(_ & _ & [->|[->| ->]])]);
    unfold counters_only; cbn; auto.
Qed.

Lemma steps_counters_only nb σ σ' :
  rtc (step nb) σ σ' -> counters_only (stats σ) -> counters_only (stats σ').
Proof. induction 1; eauto using step_counters_only. Qed.

(** The statistics a run of [compare_geoms] ends with: consistent
    counters, and nothing but counters. *)
Lemma compare_geoms_end npoints t4 inpNPS records :
  exists σ,
    rtc (step (budget npoints inpNPS)) (initial t4 inpNPS records) σ /\
    end_stats (compare_geoms npoints t4 inpNPS records) = Some (stats σ) /\
    counted (budget npoints inpNPS) σ /\
    counters_only (stats σ).
Proof.
  rewrite compare_geoms_run_from.
  destruct (run_from_reaches (budget npoints inpNPS) (initial t4 inpNPS records))
    as (σ & Hreach & Hend).
  exists σ. split; [exact Hreach|]. split; [destruct Hend as [-> | ->]; reflexivity|].
  split.
  - by destruct (counted_steps _ _ _ (budget_in_range npoints inpNPS)
                   (counted_initial _ t4 inpNPS records) Hreach).
  - eapply steps_counters_only; [exact Hreach|]. repeat split.
Qed.

(** X13: [compare_geoms] only ever counts successes, failures and
    ignored points.  The statistics it ends with hold no recorded
    failure, no covered rank, no outside point and no number of volumes,
    so the report of every run shows zero covered volumes, a NaN for the
    average distance and zero for the maximum. *)
Theorem compare_geoms_counts_only npoints t4 inpNPS records :
  exists s,
    end_stats (compare_geoms npoints t4 inpNPS records) = Some s /\
    counters_only s /\
    covered (report s) = 0 /\
    inputVolumes (report s) = 0 /\
    averageDist (report s) = CDouble.nan /\
    maxDist (report s) = CDouble.zero.
Proof.
  destruct (compare_geoms_end npoints t4 inpNPS records)
    as (σ & _ & Hend & _ & Honly).
  exists (stats σ). split; [exact Hend|]. split; [exact Honly|].
  destruct Honly as (Hf & Hc & _ & Hv). unfold report. rewrite Hf, Hc, Hv.
  repeat split.
Qed.

(** X14: exporting the statistics of a run, as [main] does, is defined
    only when the run counted no failure, and then the table has no data
    row: as soon as one failure was counted the export reads past the end
    of the empty failure list. *)
Theorem export_after_compare_geoms npoints t4 inpNPS records s fname rawname :
  end_stats (compare_geoms npoints t4 inpNPS records) = Some s ->
  getRawFileName fname = Ret rawname ->
  0 <= nbFailure s /\
  (nbFailure s = 0 ->
   exists out, writeOutForVisu s fname = Ret out /\ rows out = []) /\
  (0 < nbFailure s -> writeOutForVisu s fname = Undefined).
Proof.
  intros Hend Hraw.
  destruct (compare_geoms_end npoints t4 inpNPS records)
    as (σ & _ & Hend' & Hcount & Honly).
  rewrite Hend in Hend'. injection Hend' as ->.
  destruct Hcount as (_ & Hf & _). destruct Honly as (Hnone & _).
  split; [exact Hf|].
  rewrite (writeOutForVisu_cases _ _ _ Hraw), Hnone. cbn [length].
  split; intros Hn.
  - rewrite decide_True by lia. eexists. split; [reflexivity|].
    cbn [rows]. by rewrite take_nil.
  - rewrite decide_False by lia. reflexivity.
Qed.

(** ** Runs without a point outside *)

Lemma all_inside_returns nb recs :
  forall σ,
    unread (mcnpGeom σ) = recs ->
    Forall (fun d => 0 <= which_volume (volumes (t4Geom σ)) (pointXyz d)) recs ->
    exists σ',
      rtc (step nb) σ σ' /\
      run_from nb σ = Returned (t4Geom σ') (stats σ') /\
      readNextPtracData nb (mcnpGeom σ') = None /\
      nbPointsRead (mcnpGeom σ') + Z.of_nat (length (unread (mcnpGeom σ')))
        = nbPointsRead (mcnpGeom σ) + Z.of_nat (length recs).
Proof.
  assert (Hstop : forall σ,
    readNextPtracData nb (mcnpGeom σ) = None ->
    exists σ',
      rtc (step nb) σ σ' /\
      run_from nb σ = Returned (t4Geom σ') (stats σ') /\
      readNextPtracData nb (mcnpGeom σ') = None /\
      nbPointsRead (mcnpGeom σ') + Z.of_nat (length (unread (mcnpGeom σ')))
        = nbPointsRead (mcnpGeom σ) + Z.of_nat (length (unread (mcnpGeom σ)))).
  { intros σ Hnone. exists σ. rewrite run_from_unfold, Hnone.
    split; [apply rtc_refl|]. split; [reflexivity|].
    split; reflexivity. }
  induction recs as [|d0 rest IH]; intros σ Hun Hall;
    destruct (readNextPtracData nb (mcnpGeom σ)) as [[d m']|] eqn:Hread;
    try (rewrite <- Hun; by apply Hstop).
  { apply readNextPtracData_Some in Hread as (_ & Hun' & _). congruence. }
  pose proof Hread as Hread'.
  apply readNextPtracData_Some in Hread' as (_ & Hun' & Hcount).
  rewrite Hun in Hun'. injection Hun' as <- Hrest.
  apply Forall_cons in Hall as [Hin Hall].
  destruct (loop_body_cases d0 (t4Geom σ) (stats σ))
    as [[Hout _]|[_ (g' & s' & Hb & _ & Hg)]].
  { unfold rank_of in Hout. lia. }
  assert (Hall' : Forall (fun d => 0 <= which_volume (volumes g') (pointXyz d)) rest).
  { destruct Hg as [->|[_ ->]]; exact Hall. }
  destruct (IH {| mcnpGeom := m'; t4Geom := g'; stats := s' |}
               (eq_sym Hrest) Hall')
    as (σ' & Hsteps & Hend & Hnone & Hlen).
  exists σ'. split.
  { eapply rtc_l; [|exact Hsteps]. unfold step, iteration.
    rewrite Hread, Hb. reflexivity. }
  split; [rewrite run_from_unfold, Hread, Hb; exact Hend|].
  split; [exact Hnone|]. rewrite Hlen. cbn [length mcnpGeom]. lia.
Qed.

(** X15: when no record lies outside the target geometry,
    [compare_geoms] returns, and the points it has counted are the
    records of the file up to the budget: the smaller of the number of
    records and of [min(npoints, NPS)] as an [int] (none when that is
    negative). *)
Theorem compare_geoms_counts_all npoints t4 inpNPS records :
  Forall (fun d => 0 <= which_volume t4 (pointXyz d)) records ->
  exists g s,
    compare_geoms npoints t4 inpNPS records = Returned g s /\
    getTotalPts s =
      Z.min (Z.of_nat (length records)) (Z.max 0 (budget npoints inpNPS)).
Proof.
  intros Hall. rewrite compare_geoms_run_from.
  destruct (all_inside_returns (budget npoints inpNPS) records
              (initial t4 inpNPS records) eq_refl Hall)
    as (σ & Hreach & Hend & Hnone & Hlen).
  exists (t4Geom σ), (stats σ). split; [exact Hend|].
  pose proof (budget_in_range npoints inpNPS) as Hnb.
  destruct (counted_steps _ _ _ Hnb (counted_initial _ t4 inpNPS records) Hreach)
    as (Hc & Hmono).
  rewrite (counted_total _ _ Hnb Hc).
  destruct Hc as (Hs & Hf & Hi & Ho & Hsum & Hmax).
  cbn in Hlen. unfold readNextPtracData in Hnone.
  destruct (Z.leb_spec (budget npoints inpNPS) (nbPointsRead (mcnpGeom σ))).
  - lia.
  - destruct (unread (mcnpGeom σ)); [|discriminate]. cbn in Hlen. lia.
Qed.

End RunsMore.

(** * What the equivalence map holds *)
Section MapFacts.
Import Statistics Oracle.
Context {MaterialKey : Type} `{Countable MaterialKey}.
Implicit Types (g : T4Geometry MaterialKey) (d : PtracData MaterialKey).
Implicit Types (s : Statistics) (σ : LoopState MaterialKey).
Implicit Types (records done : list (PtracData MaterialKey)).

Ltac int_lia := unfold CInt.in_range, CInt.INT_MIN, CInt.INT_MAX in *; lia.

Lemma first_sighting_snoc t4 done d key :
  first_sighting t4 (done ++ [d]) key =
    match first_sighting t4 done key with
    | Some compo => Some compo
    | None =>
        if decide (materialDensity d = key)
        then Some (get_name_from_volume t4 (which_volume t4 (pointXyz d)))
        else None
    end.
Proof.
  induction done as [|d0 done IH]; cbn; [by destruct (decide _)|].
  destruct (decide (materialDensity d0 = key)); [reflexivity | exact IH].
Qed.

(** The map is the table of first sightings of the records read so
    far. *)
Lemma first_sighting_step nb t4 records σ σ' done :
  step nb σ σ' ->
  volumes (t4Geom σ) = t4 ->
  records = done ++ unread (mcnpGeom σ) ->
  (forall key, equivalenceMap (t4Geom σ) !! key = first_sighting t4 done key) ->
  exists d,
    volumes (t4Geom σ') = t4 /\
    records = (done ++ [d]) ++ unread (mcnpGeom σ') /\
    (forall key,
        equivalenceMap (t4Geom σ') !! key = first_sighting t4 (done ++ [d]) key).
Proof.
  intros Hstep Hvol Hrec Hmap.
  destruct (step_inv _ _ _ Hstep) as (d & Hun & _ & _ & _ & Hvol' & Hcase).
  exists d. split; [congruence|].
  split; [rewrite Hrec, Hun, <- app_assoc; reflexivity|].
  intros key. rewrite first_sighting_snoc, <- Hmap.
  destruct Hcase as [(Hnew & -> & _)|([compo Hold] & -> & _)].
  - cbn. unfold compo_of, rank_of. rewrite Hvol.
    destruct (decide (materialDensity d = key)) as [<-|Hne].
    + rewrite lookup_insert_eq, Hnew. reflexivity.
    + rewrite lookup_insert_ne by exact Hne.
      by destruct (equivalenceMap (t4Geom σ) !! key).
  - destruct (equivalenceMap (t4Geom σ) !! key) eqn:Hk; [reflexivity|].
    destruct (decide (materialDensity d = key)) as [<-|Hne]; [congruence|].
    reflexivity.
Qed.

(** X16: first observation wins.  At every point of a run of
    [compare_geoms] the equivalence map is the table of first sightings:
    a key is mapped to the composition found at the first record read
    that carries the key, and a key no record read carries is absent. *)
Theorem equivalence_map_first_sighting npoints t4 inpNPS records σ :
  rtc (step (budget npoints inpNPS)) (initial t4 inpNPS records) σ ->
  exists done,
    records = done ++ unread (mcnpGeom σ) /\
    forall key,
      equivalenceMap (t4Geom σ) !! key = first_sighting t4 done key.
Proof.
  intros Hreach.
  cut (volumes (t4Geom σ) = t4 /\
       exists done, records = done ++ unread (mcnpGeom σ) /\
         forall key, equivalenceMap (t4Geom σ) !! key = first_sighting t4 done key).
  { intros [_ Hdone]. exact Hdone. }
  revert σ Hreach.
  apply (rtc_ind_r (R := step (budget npoints inpNPS)) _
                   (initial t4 inpNPS records)).
  - split; [reflexivity|].
    exists []. split; [reflexivity|]. intros key. apply lookup_empty.
  - intros σ1 σ2 Hreach Hstep IH.
    destruct IH as (Hvol & done & Hrec & Hmap).
    destruct (first_sighting_step _ _ _ _ _ _ Hstep Hvol Hrec Hmap)
      as (d & Hvol' & Hrec' & Hmap').
    split; [exact Hvol'|]. exists (done ++ [d]). split; assumption.
Qed.

(** Entries and successes: what one iteration keeps. *)
Lemma entries_step nb σ σ' :
  CInt.in_range nb ->
  counted nb σ ->
  step nb σ σ' ->
  Z.of_nat (size (equivalenceMap (t4Geom σ))) <= nbSuccess (stats σ) ->
  Z.of_nat (size (equivalenceMap (t4Geom σ'))) <= nbSuccess (stats σ') /\
  equivalenceMap (t4Geom σ') <> ∅.
Proof.
  intros Hnb (Hs & Hf & Hi & Ho & Hsum & Hmax) Hstep Hsize.
  destruct (step_inv _ _ _ Hstep)
    as (d & _ & _ & Hlt & _ & _ & [(Hnew & -> & ->)|([compo Hold] & -> & Hstats)]).
  - cbn. rewrite incr_below by int_lia.
    rewrite map_size_insert_None by exact Hnew.
    split; [lia | apply insert_non_empty].
  - split.
    + destruct Hstats as [->|[->| ->]]; cbn; [|exact Hsize..].
      rewrite incr_below by int_lia. lia.
    + intros Hempty. rewrite Hempty, lookup_empty in Hold. discriminate.
Qed.

(** X17: at every point of a run of [compare_geoms] the map has at most
    as many entries as successes were counted, and once a point has been
    counted the map is not empty: the first point of a run is always a
    success. *)
Theorem entries_bounded_by_successes npoints t4 inpNPS records σ :
  rtc (step (budget npoints inpNPS)) (initial t4 inpNPS records) σ ->
  Z.of_nat (size (equivalenceMap (t4Geom σ))) <= nbSuccess (stats σ) /\
  (0 < getTotalPts (stats σ) ->
   1 <= nbSuccess (stats σ) /\ equivalenceMap (t4Geom σ) <> ∅).
Proof.
  intros Hreach. pose proof (budget_in_range npoints inpNPS) as Hnb.
  cut (counted (budget npoints inpNPS) σ /\
       Z.of_nat (size (equivalenceMap (t4Geom σ))) <= nbSuccess (stats σ) /\
       (0 < nbPointsRead (mcnpGeom σ) -> equivalenceMap (t4Geom σ) <> ∅)).
  { intros (Hc & Hsize & Hne). split; [exact Hsize|].
    rewrite (counted_total _ _ Hnb Hc).
    destruct Hc as (_ & _ & _ & _ & -> & _). intros Hpos.
    specialize (Hne Hpos). split; [|exact Hne].
    destruct (size (equivalenceMap (t4Geom σ))) eqn:Hz; [|lia].
    by apply map_size_empty_iff in Hz. }
  revert σ Hreach.
  apply (rtc_ind_r (R := step (budget npoints inpNPS)) _
                   (initial t4 inpNPS records)).
  - split; [apply counted_initial|]. cbn. rewrite map_size_empty. split; lia.
  - intros σ1 σ2 Hreach Hstep IH.
    destruct IH as (Hc & Hsize & _).
    destruct (counted_step _ _ _ Hnb Hc Hstep) as (Hc' & _).
    destruct (entries_step _ _ _ Hnb Hc Hstep Hsize) as (Hsize' & Hne').
    auto.
Qed.

End MapFacts.

(** * The further theorems at sample inputs *)
Section MoreSamples.
Import Statistics Oracle.

(** The export name of [main], a name in dotted directories, and a name
    without extension behind a dotted directory. *)
Example raw_names :
  getRawFileName "outputViz.txt" = Ret "outputViz" /\
  getRawFileName "a/b.c/out.viz.txt" = Ret "out.viz" /\
  getRawFileName "./outputViz" = Throw "out_of_range".
Proof. repeat split. Qed.

Lemma getRawFileName_no_slash_witness :
  getRawFileName "a/b.c/out.viz.txt" = Ret "out.viz" /\
  StdString.find_last_of "out.viz" "/" = None /\
  (String.length "out.viz" + name_start "a/b.c/out.viz.txt"
   = name_stop "a/b.c/out.viz.txt")%nat.
Proof.
  split; [reflexivity|].
  exact (getRawFileName_no_slash "a/b.c/out.viz.txt" "out.viz" eq_refl).
Defined.

Lemma writeOutForVisu_defined_witness :
  getRawFileName "outputViz.txt" = Ret "outputViz" /\
  exists out,
    writeOutForVisu Sample.one_failure "outputViz.txt" = Ret out /\
    rows out = [Sample.failed_point].
Proof.
  split; [reflexivity|]. eexists.
  rewrite (writeOutForVisu_defined Sample.one_failure "outputViz.txt" "outputViz"
             eq_refl).
  split; reflexivity.
Defined.

Lemma writeOutForVisu_in_step_witness :
  getRawFileName "outputViz.txt" = Ret "outputViz" /\
  in_step Sample.one_failure /\
  exists out,
    writeOutForVisu Sample.one_failure "outputViz.txt" = Ret out /\
    rows out = failures Sample.one_failure /\
    datFile out = "outputViz.failedpoints.dat".
Proof.
  split; [reflexivity|]. split; [reflexivity|].
  exact (writeOutForVisu_in_step Sample.one_failure "outputViz.txt" "outputViz"
           eq_refl eq_refl).
Defined.

Lemma in_step_kept_witness :
  in_step Statistics.new /\
  nbFailure Statistics.new < CInt.INT_MAX /\
  recordFailure [CDouble.of_Z 1; CDouble.of_Z 2; CDouble.of_Z 3] 4 1 7 2
                CDouble.lit_100 (incrementFailure Statistics.new)
    = Ret Sample.one_failure /\
  in_step Sample.one_failure.
Proof.
  assert (Hmax : nbFailure Statistics.new < CInt.INT_MAX) by reflexivity.
  split; [reflexivity|]. split; [exact Hmax|]. split; [reflexivity|].
  exact (proj1 (in_step_kept Statistics.new
                  [CDouble.of_Z 1; CDouble.of_Z 2; CDouble.of_Z 3] 4 1 7 2
                  CDouble.lit_100 Sample.one_failure eq_refl Hmax eq_refl)).
Defined.

Lemma get_opts_files_readable_witness :
  exists o,
    OptionsCompare.get_opts (fun _ => 0) Sample.extract (fun _ => true)
                            Sample.argv OptionsCompare.new = Ret o /\
    (OptionsCompare.help o = true \/
     (3 < Z.of_nat (length Sample.argv) /\
      Forall (fun f => (fun _ : string => true) f = true)
             (OptionsCompare.filenames o))).
Proof.
  eexists. split; [vm_compute; reflexivity|].
  refine (get_opts_files_readable (fun _ => 0) Sample.extract (fun _ => true)
            Sample.argv OptionsCompare.new _ _).
  vm_compute. reflexivity.
Defined.

Lemma get_opts_npoints_filenames_witness :
  exists o,
    OptionsCompare.get_opts (fun _ => 0) Sample.extract (fun _ => true)
                            Sample.argv OptionsCompare.new = Ret o /\
    npoints_positive o /\
    OptionsCompare.filenames o `sublist_of` tail Sample.argv /\
    Forall (fun f => f ∉ option_words) (OptionsCompare.filenames o).
Proof.
  eexists. split; [vm_compute; reflexivity|].
  refine (get_opts_npoints_filenames (fun _ => 0) Sample.extract (fun _ => true)
            Sample.argv _ _).
  vm_compute. reflexivity.
Defined.

Lemma get_opts_help_first_witness :
  Forall (fun f => f ∉ option_words) ["missing.t4"] /\
  (2 <= length ["missing.t4"] + length ["-V"; "--delta"])%nat /\
  exists o,
    OptionsCompare.get_opts (fun _ => 0) Sample.extract (fun _ => false)
                            Sample.argv_help OptionsCompare.new = Ret o /\
    OptionsCompare.help o = true /\
    OptionsCompare.filenames o = ["missing.t4"].
Proof.
  assert (Hpre : Forall (fun f => f ∉ option_words) ["missing.t4"]).
  { repeat constructor. unfold option_words.
    rewrite !elem_of_cons, elem_of_nil. intuition discriminate. }
  assert (Hlen : (2 <= length ["missing.t4"] + length ["-V"; "--delta"])%nat)
    by (cbn; lia).
  split; [exact Hpre|]. split; [exact Hlen|].
  exact (get_opts_help_first (fun _ => 0) Sample.extract (fun _ => false)
           "oracle" ["missing.t4"] "--help" ["-V"; "--delta"]
           Hpre (or_introl eq_refl) Hlen).
Defined.

Lemma export_after_compare_geoms_witness :
  end_stats (compare_geoms 10 Sample.slab 10 Sample.two_points)
    = Some (incrementFailure (incrementSuccess Statistics.new)) /\
  getRawFileName "outputViz.txt" = Ret "outputViz" /\
  writeOutForVisu (incrementFailure (incrementSuccess Statistics.new))
                  "outputViz.txt" = Undefined.
Proof.
  assert (Hend : end_stats (compare_geoms 10 Sample.slab 10 Sample.two_points)
                 = Some (incrementFailure (incrementSuccess Statistics.new)))
    by reflexivity.
  split; [exact Hend|]. split; [reflexivity|].
  refine (proj2 (proj2 (export_after_compare_geoms 10 Sample.slab 10
                          Sample.two_points _ "outputViz.txt" "outputViz"
                          Hend eq_refl)) _).
  reflexivity.
Defined.

Lemma compare_geoms_counts_all_witness :
  Forall (fun d => 0 <= which_volume Sample.slab (pointXyz d)) Sample.three_points /\
  exists g s,
    compare_geoms 2 Sample.slab 10 Sample.three_points = Returned g s /\
    getTotalPts s = 2.
Proof.
  assert (Hall : Forall (fun d => 0 <= which_volume Sample.slab (pointXyz d))
                        Sample.three_points)
    by (repeat constructor; vm_compute; discriminate).
  split; [exact Hall|].
  exact (compare_geoms_counts_all 2 Sample.slab 10 Sample.three_points Hall).
Defined.

Lemma equivalence_map_first_sighting_witness :
  rtc (step (budget 10 10)) (initial Sample.slab 10 Sample.three_points)
      Sample.run_two /\
  exists done,
    Sample.three_points = done ++ unread (mcnpGeom Sample.run_two) /\
    forall key,
      equivalenceMap (t4Geom Sample.run_two) !! key
        = first_sighting Sample.slab done key.
Proof.
  assert (Hreach : rtc (step (budget 10 10))
                       (initial Sample.slab 10 Sample.three_points) Sample.run_two).
  { eapply rtc_l; [|apply rtc_once]; reflexivity. }
  split; [exact Hreach|].
  exact (equivalence_map_first_sighting 10 Sample.slab 10 Sample.three_points
           Sample.run_two Hreach).
Defined.

Lemma entries_bounded_by_successes_witness :
  rtc (step (budget 10 10)) (initial Sample.slab 10 Sample.three_points)
      Sample.run_two /\
  Z.of_nat (size (equivalenceMap (t4Geom Sample.run_two)))
    <= nbSuccess (stats Sample.run_two).
Proof.
  assert (Hreach : rtc (step (budget 10 10))
                       (initial Sample.slab 10 Sample.three_points) Sample.run_two).
  { eapply rtc_l; [|apply rtc_once]; reflexivity. }
  split; [exact Hreach|].
  exact (proj1 (entries_bounded_by_successes 10 Sample.slab 10 Sample.three_points
                  Sample.run_two Hreach)).
Defined.

End MoreSamples.
